(** * Regulated Builds: the query flow of [UI.py]

    A shallow embedding of the retrieval-augmented question answering flow
    of [UI.py], the body of [if st.button("Search"):] (lines 118-260):
    the check of the query, the embedding and retrieval calls, the assembly
    of the context blocks, the two prompt templates, and the generation
    step with its [try]/[except].

    - Python strings are sequences of Unicode code points and [str.strip]
      works on code points, so a string is a list of code points.  The
      literal text of the source is written as string literals, which hold
      the UTF-8 bytes of the text, and decoded by [Py.utf8].
    - The records of the retrieval reply are decoded JSON: dictionaries,
      lists, strings, integers, booleans and [None].  A field is absent
      when the dictionary has no such key; [d[k]] then raises [KeyError]
      and [d.get(k, default)] gives the default.
    - Code that can raise returns a [result]; the loops that append to a
      list are recursive functions with the list built so far.
    - The embedder, the retrieval service and the generator are parameters
      of a run ([services]); a run yields the trace of the calls it makes
      and of the messages it shows, and the way it ends. *)

From Stdlib Require Import List NArith ZArith Bool Ascii String Lia.
From Stdlib Require Import DecimalString.
Import ListNotations.

Local Open Scope N_scope.
Local Open Scope list_scope.

(* ===================================================================== *)
(** ** Python strings                                                     *)
(* ===================================================================== *)

Module Py.

(** A Python [str]: its code points, in order. *)
Definition str := list N.

(** Decoding of the UTF-8 bytes of a literal: [acc] holds the bits read so
    far of a multi-byte character and [pending] the number of continuation
    bytes still expected. *)
Fixpoint utf8_go (bs : list N) (acc : N) (pending : nat) : str :=
  match bs with
  | [] => []
  | b :: r =>
      match pending with
      | S k =>
          let acc' := acc * 64 + b mod 64 in
          match k with
          | O => acc' :: utf8_go r 0 O
          | S _ => utf8_go r acc' k
          end
      | O =>
          if b <? 128 then b :: utf8_go r 0 O
          else if b <? 224 then utf8_go r (b mod 32) 1%nat
          else if b <? 240 then utf8_go r (b mod 16) 2%nat
          else utf8_go r (b mod 8) 3%nat
      end
  end.

Definition utf8 (s : string) : str :=
  utf8_go (map N_of_ascii (list_ascii_of_string s)) 0 O.

(** The double quote character, which the literals below splice in. *)
Definition dquote : str := [34].

(** The line feed, [\n]. *)
Definition nl : str := [10].

(** [str.isspace] on one character, after CPython's
    [_PyUnicode_IsWhitespace]: the characters of bidirectional type WS, B
    or S, and those of category Zs. *)
Definition isspace (c : N) : bool :=
  ((9 <=? c) && (c <=? 13)) || ((28 <=? c) && (c <=? 32))
  || (c =? 133) || (c =? 160) || (c =? 5760)
  || ((8192 <=? c) && (c <=? 8202))
  || (c =? 8232) || (c =? 8233) || (c =? 8239) || (c =? 8287)
  || (c =? 12288).

(** [s.lstrip()], [s.rstrip()] and [s.strip()] without argument. *)
Fixpoint lstrip (s : str) : str :=
  match s with
  | [] => []
  | c :: r => if isspace c then lstrip r else s
  end.

Fixpoint rstrip (s : str) : str :=
  match s with
  | [] => []
  | c :: r =>
      match rstrip r with
      | [] => if isspace c then [] else [c]
      | r' => c :: r'
      end
  end.

Definition strip (s : str) : str := rstrip (lstrip s).

(** A string of whitespace only (the empty string included). *)
Definition spaces (ws : str) : Prop := forallb isspace ws = true.

(** [sep.join(parts)] for a list of strings. *)
Fixpoint join (sep : str) (parts : list str) : str :=
  match parts with
  | [] => []
  | [p] => p
  | p :: rest => p ++ sep ++ join sep rest
  end.

(** Equality of strings, for dictionary keys. *)
Fixpoint eqb (a b : str) : bool :=
  match a, b with
  | [], [] => true
  | x :: a', y :: b' => (x =? y) && eqb a' b'
  | _, _ => false
  end.

(** [not s] for a string: only the empty string is falsy. *)
Definition not_ (s : str) : bool :=
  match s with [] => true | _ :: _ => false end.

(** [a in b] for strings: [a] occurs in [b] as a contiguous run. *)
Definition contains (b a : str) : Prop :=
  exists pre post, b = pre ++ a ++ post.

Fixpoint starts_with (a b : str) : bool :=
  match a, b with
  | [], _ => true
  | x :: a', y :: b' => (x =? y) && starts_with a' b'
  | _ :: _, [] => false
  end.

Fixpoint containsb (b a : str) : bool :=
  starts_with a b ||
  match b with
  | [] => false
  | _ :: b' => containsb b' a
  end.

(** [str(n)] for an [int]. *)
Definition str_of_int (z : Z) : str :=
  map N_of_ascii (list_ascii_of_string (NilZero.string_of_int (Z.to_int z))).

End Py.


(* ===================================================================== *)
(** ** Python values, exceptions and dictionaries                         *)
(* ===================================================================== *)

#[local] Set Warnings "-register-all".

(** The values a decoded JSON reply is made of.  A dictionary is the list
    of its items in insertion order; a key is looked up from the front. *)
Inductive value : Type :=
| VNone
| VBool (b : bool)
| VInt (z : Z)
| VStr (s : Py.str)
| VList (l : list value)
| VDict (items : list (Py.str * value)).

(** The exceptions the flow can meet.  [ServiceError] stands for whatever
    an external call raises and carries [str(e)]. *)
Inductive exn : Type :=
| KeyError (key : Py.str)
| TypeError
| AttributeError
| ServiceError (detail : Py.str).

Inductive result (A : Type) : Type :=
| Ok (a : A)
| Raise (e : exn).

Arguments Ok {A} a.
Arguments Raise {A} e.

Definition bind {A B : Type} (m : result A) (f : A -> result B) : result B :=
  match m with
  | Ok a => f a
  | Raise e => Raise e
  end.

Declare Scope py_scope.
Delimit Scope py_scope with py.
Notation "x <- m ;; k" := (bind m (fun x => k))
  (at level 61, m at next level, right associativity) : py_scope.
Local Open Scope py_scope.

(** A string literal of the source as a value. *)
Definition lit (s : string) : value := VStr (Py.utf8 s).

(** The first item of a dictionary with the given key. *)
Fixpoint lookup (items : list (Py.str * value)) (key : Py.str) : option value :=
  match items with
  | [] => None
  | (k, v) :: rest => if Py.eqb k key then Some v else lookup rest key
  end.

(** [v[key]] with a string key: [KeyError] on a dictionary without the key;
    lists, strings, numbers and [None] do not take a string subscript. *)
Definition subscript (v : value) (key : string) : result value :=
  match v with
  | VDict items =>
      match lookup items (Py.utf8 key) with
      | Some x => Ok x
      | None => Raise (KeyError (Py.utf8 key))
      end
  | _ => Raise TypeError
  end.

(** [v.get(key, default)]: only a dictionary has the method; a key that is
    present wins over the default, whatever its value ([None] included). *)
Definition get (v : value) (key : string) (default : value) : result value :=
  match v with
  | VDict items =>
      match lookup items (Py.utf8 key) with
      | Some x => Ok x
      | None => Ok default
      end
  | _ => Raise AttributeError
  end.

(** The value a record holds under a key, if it is a dictionary that has
    the key: a field is absent when this is [None]. *)
Definition field (record : value) (key : string) : option value :=
  match record with
  | VDict items => lookup items (Py.utf8 key)
  | _ => None
  end.

(** Truth value of a Python object. *)
Definition truthy (v : value) : bool :=
  match v with
  | VNone => false
  | VBool b => b
  | VInt z => negb (Z.eqb z 0)
  | VStr s => negb (Py.not_ s)
  | VList l => match l with [] => false | _ :: _ => true end
  | VDict items => match items with [] => false | _ :: _ => true end
  end.

(** [a or b]. *)
Definition or_ (a b : value) : value := if truthy a then a else b.

(** The items a [for] loop (or [join]) draws from a value: the elements of
    a list, the characters of a string, the keys of a dictionary. *)
Definition iter (v : value) : result (list value) :=
  match v with
  | VList l => Ok l
  | VStr s => Ok (map (fun c => VStr [c]) s)
  | VDict items => Ok (map (fun kv => VStr (fst kv)) items)
  | VNone | VBool _ | VInt _ => Raise TypeError
  end.

(** The items of [sep.join(...)] must all be strings. *)
Fixpoint all_str (l : list value) : result (list Py.str) :=
  match l with
  | [] => Ok []
  | VStr s :: rest => ss <- all_str rest ;; Ok (s :: ss)
  | _ :: _ => Raise TypeError
  end.

Definition join_value (sep : string) (v : value) : result Py.str :=
  items <- iter v ;;
  ss <- all_str items ;;
  Ok (Py.join (Py.utf8 sep) ss).

(** A [for] loop whose body computes one string and appends it to the list
    built so far ([acc.append(...)]); an exception in the body leaves the
    loop. *)
Fixpoint for_append (body : value -> result Py.str) (items : list value)
    (acc : list Py.str) : result (list Py.str) :=
  match items with
  | [] => Ok acc
  | x :: rest => b <- body x ;; for_append body rest (acc ++ [b])
  end.

(* ===================================================================== *)
(** ** The two prompt templates (lines 179-231)                           *)
(* ===================================================================== *)

(** Lines 180-198: the grounded template up to [{query.strip()}]. *)
Definition grounded_head : Py.str :=
  Py.utf8 "
You are a top-tier OSHA compliance advisor assisting field professionals, safety officers, and legal teams.

Your task is to answer the user’s question with clarity, precision, and regulatory grounding — using only the information provided in the **clause summaries**, **supporting documents**, and **enforcement notes**.

**Your response must:**
1. Be written in **clear, practical English** suitable for field decision-makers.
2. Explicitly cite the applicable **OSHA section ID(s)** (e.g., `1926.501(b)(11)`).
3. State whether the rule is **mandatory**, **conditional**, or **guidance only**.
4. Identify **who it applies to** and **where** (if applicable).
5. Include any **exceptions**, **scope limitations**, or **state plan differences**.
6. Indicate the **likelihood of citation or violation**, based on past enforcement patterns or violation frequency.
7. Highlight **common compliance pitfalls**, enforcement notes, or case-by-case considerations.
8. Never assume or invent interpretations — if unclear, write: `" ++ Py.dquote ++ Py.utf8 "Not clear from provided context." ++ Py.dquote ++ Py.utf8 "`

---

❓ **User Question**:
".

(** Lines 198-203: between [{query.strip()}] and the joined context. *)
Definition grounded_middle : Py.str :=
  Py.utf8 "

---

📘 **Regulatory Context**:
".

(** Lines 203-208: after the joined context. *)
Definition grounded_tail : Py.str :=
  Py.utf8 "

---

💬 **Answer**:
".

(** Lines 210-227: the raw template up to [{query}]. *)
Definition raw_head : Py.str :=
  Py.utf8 "
You are a top-tier OSHA compliance advisor assisting field professionals, safety officers, and legal teams.

Your task is to answer the user’s question with clarity, precision, and regulatory grounding — using only the information provided in the **clause summaries**, **supporting documents**, and **enforcement notes**.

**Your response must:**
1. Be written in **clear, practical English** suitable for field decision-makers.
2. Explicitly cite the applicable **OSHA section ID(s)** (e.g., `1926.501(b)(11)`).
3. State whether the rule is **mandatory**, **conditional**, or **guidance only**.
4. Identify **who it applies to** and **where** (if applicable).
5. Include any **exceptions**, **scope limitations**, or **state plan differences**.
6. Indicate the **likelihood of citation or violation**, based on past enforcement patterns or violation frequency.
7. Highlight **common compliance pitfalls**, enforcement notes, or case-by-case considerations.
8. Never assume or invent interpretations — if unclear, write: `" ++ Py.dquote ++ Py.utf8 "Not clear from provided context." ++ Py.dquote ++ Py.utf8 "`

---
Question:
".

(** Lines 227-231: after [{query}]. *)
Definition raw_tail : Py.str :=
  Py.utf8 "

---
Answer:
".

(** [prompt] of the branch [answer_mode == "Regulated Builds"]. *)
Definition grounded_prompt (query : Py.str) (context_blocks : list Py.str) : Py.str :=
  grounded_head ++ Py.strip query ++ grounded_middle
  ++ Py.join Py.nl context_blocks ++ grounded_tail.

(** The assembled context: what line 203 puts under [Regulatory Context]. *)
Definition assembled_context (context_blocks : list Py.str) : Py.str :=
  Py.join Py.nl context_blocks.

(** [prompt] of the [else] branch. *)
Definition raw_prompt (query : Py.str) : Py.str :=
  raw_head ++ query ++ raw_tail.

(* ===================================================================== *)
(** ** The context blocks (lines 136-176)                                 *)
(* ===================================================================== *)

Section Flow.

(** [repr] of Python, which [str] falls back on for lists and dictionaries;
    it depends on the Unicode character database and stays a parameter. *)
Variable repr : value -> Py.str.

(** The type of the embedding that [model.encode] returns and the
    retrieval call takes. *)
Variable vector : Type.

(** [str(v)], which a replacement field [{v}] of an f-string inserts. *)
Definition py_str (v : value) : Py.str :=
  match v with
  | VNone => Py.utf8 "None"
  | VBool true => Py.utf8 "True"
  | VBool false => Py.utf8 "False"
  | VInt z => Py.str_of_int z
  | VStr s => s
  | VList _ | VDict _ => repr v
  end.

(** Lines 144-151.  The display lines 138-143 before it evaluate the same
    expressions in the same order, so they raise what this raises. *)
Definition clause_block (clause : value) : result Py.str :=
  section_id <- subscript clause "clause_section_id" ;;
  title <- subscript clause "clause_title" ;;
  summary <- subscript clause "clause_summary" ;;
  violations <- get clause "violations_fy2024" (lit "N/A") ;;
  hazard_type <- get clause "hazard_type" (lit "N/A") ;;
  applies_to <- get clause "applies_to" (VList []) ;;
  applies <- join_value ", " (or_ applies_to (VList [])) ;;
  equipment <- get clause "protective_equipment" (lit "N/A") ;;
  Ok (Py.strip (Py.utf8 "
🔹 " ++ py_str section_id ++ Py.utf8 ": " ++ py_str title ++ Py.utf8 "
Summary: " ++ py_str summary ++ Py.utf8 "
Violations (FY2024): " ++ py_str violations ++ Py.utf8 "
Hazard Type: " ++ py_str hazard_type ++ Py.utf8 "
Applies To: " ++ applies ++ Py.utf8 "
Protective Equipment: " ++ py_str equipment ++ Py.utf8 "
")).

(** Lines 155-173, one supporting document.  The label of the expander
    (line 155) calls [doc.get] first; the display lines 157-163 then
    evaluate the subscripts in the order of the block. *)
Definition doc_block (doc : value) : result Py.str :=
  _ <- get doc "support_title" (lit "N/A") ;;
  _ <- get doc "support_publication_date" (lit "N/A") ;;
  title <- subscript doc "support_title" ;;
  summary <- subscript doc "support_summary" ;;
  guidance <- get doc "support_compliance_guidance" (lit "") ;;
  notes <- get doc "support_enforcement_notes" (lit "") ;;
  url <- subscript doc "support_url" ;;
  related <- get doc "support_related_sections" (lit "N/A") ;;
  publication_type <- get doc "support_publication_type" (lit "N/A") ;;
  published <- get doc "support_publication_date" (lit "N/A") ;;
  Ok (Py.strip (Py.utf8 "
            ✅ Support Doc: " ++ py_str title ++ Py.utf8 "
            - Summary: " ++ py_str summary ++ Py.utf8 "
            - Guidance: " ++ py_str guidance ++ Py.utf8 "
            - Notes: " ++ py_str notes ++ Py.utf8 "
            - URL: " ++ py_str url ++ Py.utf8 "
            - Related Sections: " ++ py_str related ++ Py.utf8 "
            - Type: " ++ py_str publication_type ++ Py.utf8 "
            - Published: " ++ py_str published ++ Py.utf8 "
            ")).

(** Lines 153-173: [doc_blocks] after the inner loop. *)
Definition doc_blocks (clause : value) : result (list Py.str) :=
  support_docs <- get clause "support_docs" (VList []) ;;
  docs <- iter support_docs ;;
  for_append doc_block docs [].

(** Line 175: [full_block] of one clause. *)
Definition full_block (clause : value) : result Py.str :=
  block <- clause_block clause ;;
  blocks <- doc_blocks clause ;;
  Ok (block ++ Py.utf8 "

" ++ Py.join (Py.utf8 "

") blocks).

(** Lines 136-176: [context_blocks] after the loop over [clauses]. *)
Definition context_blocks (clauses : value) : result (list Py.str) :=
  items <- iter clauses ;;
  for_append full_block items [].

(* ===================================================================== *)
(** ** The query flow (lines 118-260)                                     *)
(* ===================================================================== *)

(** The two options of the radio [answer_mode]. *)
Inductive mode : Type :=
| RegulatedBuilds
| RawGemini.

(** What an external call gives back: a value, or an exception, of which
    the flow only ever uses [str(e)]. *)
Inductive reply (A : Type) : Type :=
| Returned (a : A)
| Failed (detail : Py.str).

Arguments Returned {A} a.
Arguments Failed {A} detail.

(** The external collaborators.
    - [encode query]: [model.encode([query], normalize_embeddings=True)[0]]
      with the conversion to a list of floats (lines 127-128);
    - [rpc_execute embedding match_count]: the [data] of the reply of
      [supabase.rpc("match_supporting_docs_grouped", ...).execute()]
      (lines 129-133);
    - [generate_content m prompt]: [genai.configure] with the key of the
      mode, [gemini.generate_content(prompt)] and [.text] (lines 235-240). *)
Record services : Type := {
  encode : Py.str -> reply vector;
  rpc_execute : vector -> Z -> reply value;
  generate_content : mode -> Py.str -> reply Py.str
}.

(** What a run does, in order: the calls to the collaborators and the
    Streamlit calls that report on the query.  The expanders that display
    the clauses and documents, the vote counter and the page footer are
    not part of the trace. *)
Inductive event : Type :=
| StWarning (body : Py.str)
| StWrite (body : Py.str)
| CallEncode (query : Py.str)
| CallRpc (query_embedding : vector) (match_count : Z)
| StSubheader (body : Py.str)
| CallGenerate (m : mode) (prompt : Py.str)
| StMarkdown (body : Py.str)
| StDownloadButton (data : Py.str)
| StError (body : Py.str)
| StCode (body : Py.str).

(** How the body of [if st.button("Search"):] ends: it runs to its end, it
    calls [st.stop()], or an exception leaves it. *)
Inductive outcome : Type :=
| Finished
| Stopped
| Uncaught (e : exn).

(** The message of [st.warning] (line 120). *)
Definition warning_message : Py.str :=
  Py.utf8 "❗ Please enter a question before searching.".

(** The message of [st.error] (line 259). *)
Definition failure_notice : Py.str :=
  Py.utf8 "❌ Gemini failed to generate a response. Please try again or check back later.".

(** The two subheaders (lines 135 and 241). *)
Definition clauses_heading : Py.str := Py.utf8 "📘 Relevant OSHA Clauses".

Definition answer_heading : Py.str := Py.utf8 "💬 Answer".

(** The line of [st.write] (line 123). *)
Definition searching_for (query : Py.str) : Py.str :=
  Py.utf8 "🔎 Searching for: **" ++ query ++ Py.utf8 "**".

(** Lines 126-176, the branch [answer_mode == "Regulated Builds"]: the
    calls made and the context blocks, or the exception that ended it. *)
Definition retrieve (svc : services) (query : Py.str)
    : list event * result (list Py.str) :=
  match encode svc query with
  | Failed detail => ([CallEncode query], Raise (ServiceError detail))
  | Returned embedding =>
      match rpc_execute svc embedding 5%Z with
      | Failed detail =>
          ([CallEncode query; CallRpc embedding 5%Z],
           Raise (ServiceError detail))
      | Returned data =>
          let clauses := or_ data (VList []) in
          ([CallEncode query; CallRpc embedding 5%Z;
            StSubheader clauses_heading],
           context_blocks clauses)
      end
  end.

(** Lines 233-260: the [try] around the generation call and its
    [except Exception]. *)
Definition generate (svc : services) (m : mode) (prompt : Py.str) : list event :=
  match generate_content svc m prompt with
  | Returned text =>
      let answer := Py.strip text in
      [CallGenerate m prompt;
       StSubheader answer_heading;
       StMarkdown answer;
       StDownloadButton answer]
  | Failed detail =>
      [CallGenerate m prompt;
       StError failure_notice;
       StCode detail]
  end.

(** Lines 119-260: one press of the Search button. *)
Definition search (svc : services) (query : Py.str) (answer_mode : mode)
    : list event * outcome :=
  if Py.not_ query then
    ([StWarning warning_message], Stopped)
  else
    let searching := StWrite (searching_for query) in
    match answer_mode with
    | RegulatedBuilds =>
        match retrieve svc query with
        | (calls, Raise e) => (searching :: calls, Uncaught e)
        | (calls, Ok blocks) =>
            (searching :: calls
               ++ generate svc RegulatedBuilds (grounded_prompt query blocks),
             Finished)
        end
    | RawGemini =>
        (searching :: generate svc RawGemini (raw_prompt query), Finished)
    end.

End Flow.

Arguments Returned {A} a.
Arguments Failed {A} detail.
Arguments StWarning {vector} body.
Arguments StWrite {vector} body.
Arguments CallEncode {vector} query.
Arguments CallRpc {vector} query_embedding match_count.
Arguments StSubheader {vector} body.
Arguments CallGenerate {vector} m prompt.
Arguments StMarkdown {vector} body.
Arguments StDownloadButton {vector} data.
Arguments StError {vector} body.
Arguments StCode {vector} body.
Arguments encode {vector} s q.
Arguments rpc_execute {vector} s embedding match_count.
Arguments generate_content {vector} s m prompt.
Arguments retrieve repr {vector} svc query.
Arguments generate {vector} svc m prompt.
Arguments search repr {vector} svc query answer_mode.

(** Which events are calls to a collaborator. *)
Definition is_encode {vector} (e : event vector) : bool :=
  match e with CallEncode _ => true | _ => false end.

Definition is_rpc {vector} (e : event vector) : bool :=
  match e with CallRpc _ _ => true | _ => false end.

Definition is_generate {vector} (e : event vector) : bool :=
  match e with CallGenerate _ _ => true | _ => false end.

(** The calls that start the processing of a query. *)
Definition is_processing {vector} (e : event vector) : bool :=
  is_encode e || is_generate e.

(** The events that put answer text before the user. *)
Definition is_answer {vector} (e : event vector) : bool :=
  match e with StMarkdown _ | StDownloadButton _ => true | _ => false end.

(* ===================================================================== *)
(** ** Sample data                                                        *)
(* ===================================================================== *)

(** The examples format no list and no dictionary, so [repr] is never
    called in them and any function can stand for it. *)
Definition repr_unused : value -> Py.str := fun _ => [].

(** A clause record with its section id and title and nothing else. *)
Definition clause_bare : value :=
  VDict [(Py.utf8 "clause_section_id", lit "1926.501(b)(10)");
         (Py.utf8 "clause_title", lit "Roofing work on low-slope roofs")].

(** A clause record with section id, title and summary and nothing else. *)
Definition clause_minimal : value :=
  VDict [(Py.utf8 "clause_section_id", lit "1926.501(b)(10)");
         (Py.utf8 "clause_title", lit "Roofing work on low-slope roofs");
         (Py.utf8 "clause_summary", lit "Warning lines are for roofers only.")].

(** A supporting document with its three subscripted fields. *)
Definition doc_minimal : value :=
  VDict [(Py.utf8 "support_title", lit "LOI 20021115");
         (Py.utf8 "support_summary", lit "HVAC work is not roofing work.");
         (Py.utf8 "support_url", lit "https://www.osha.gov/loi/20021115")].

Definition doc_second : value :=
  VDict [(Py.utf8 "support_title", lit "LOI 19950620");
         (Py.utf8 "support_summary", lit "Suspended rebar cages.");
         (Py.utf8 "support_url", lit "https://www.osha.gov/loi/19950620")].

(** A clause with two supporting documents. *)
Definition clause_with_docs : value :=
  VDict [(Py.utf8 "clause_section_id", lit "1926.501(b)(5)");
         (Py.utf8 "clause_title", lit "Formwork and reinforcing steel");
         (Py.utf8 "clause_summary", lit "Protection from falls of 6 feet or more.");
         (Py.utf8 "violations_fy2024", VInt 120);
         (Py.utf8 "applies_to", VList [lit "ironworkers"; lit "laborers"]);
         (Py.utf8 "support_docs", VList [doc_minimal; doc_second])].

(** A clause with one supporting document and none of the four defaulted
    fields. *)
Definition clause_docs_only : value :=
  VDict [(Py.utf8 "clause_section_id", lit "1926.501(b)(10)");
         (Py.utf8 "clause_title", lit "Roofing work on low-slope roofs");
         (Py.utf8 "clause_summary", lit "Warning lines are for roofers only.");
         (Py.utf8 "support_docs", VList [doc_minimal])].

(** A reply of the generator, with blanks before and a line feed after. *)
Definition sample_text : Py.str := Py.utf8 "  No. See 1926.501(b)(10).
".

(** Collaborators for the examples; the embedding is a unit value. *)
Definition services_ok : services unit :=
  {| encode := fun _ => Returned tt;
     rpc_execute := fun _ _ => Returned (VList [clause_with_docs; clause_minimal]);
     generate_content := fun _ _ => Returned sample_text |}.

(** The retrieval call raises. *)
Definition services_rpc_down : services unit :=
  {| encode := fun _ => Returned tt;
     rpc_execute := fun _ _ => Failed (Py.utf8 "connection refused");
     generate_content := fun _ _ => Returned sample_text |}.


(** The generation call raises. *)
Definition services_gemini_down : services unit :=
  {| encode := fun _ => Returned tt;
     rpc_execute := fun _ _ => Returned (VList [clause_minimal]);
     generate_content := fun _ _ => Failed (Py.utf8 "429 quota exceeded") |}.

Definition question : Py.str := Py.utf8 "Is a harness required?".

(** The same question as typed with blanks around it. *)
Definition question_padded : Py.str := Py.utf8 "  Is a harness required? ".

(* ===================================================================== *)
(** ** Texts the statements below refer to                                *)
(* ===================================================================== *)

(** The block of a clause that has its section id, title and summary and
    none of the four defaulted fields: [N/A] for the violation count, the
    hazard type and the protective equipment, nothing after [Applies To]. *)
Definition clause_block_defaults (section_id title summary : Py.str) : Py.str :=
  Py.utf8 "🔹 " ++ section_id ++ Py.utf8 ": " ++ title ++ Py.utf8 "
Summary: " ++ summary ++ Py.utf8 "
Violations (FY2024): N/A
Hazard Type: N/A
Applies To: 
Protective Equipment: N/A".

(** The four lines of that block that stand for the absent fields. *)
Definition placeholder_lines : Py.str := Py.utf8 "
Violations (FY2024): N/A
Hazard Type: N/A
Applies To: 
Protective Equipment: N/A".

(** The sentence of the instruction section that ties the answer to the
    retrieved material (lines 183 and 213). *)
Definition grounding_instruction : Py.str :=
  Py.utf8 "using only the information provided in the **clause summaries**, **supporting documents**, and **enforcement notes**".

(** Item 8 of the instruction section (lines 193 and 223). *)
Definition fallback_instruction : Py.str :=
  Py.utf8 "8. Never assume or invent interpretations — if unclear, write: `"
  ++ Py.dquote ++ Py.utf8 "Not clear from provided context." ++ Py.dquote
  ++ Py.utf8 "`".

(** A query of blanks only. *)
Definition question_blank : Py.str := Py.utf8 "   ".

(** [block] is the text of [clause]: the clause's own lines, a blank
    line, and the texts of its supporting documents, one per document and
    in the order of [support_docs], with blank lines between them. *)
Definition block_of (repr : value -> Py.str) (clause : value) (block : Py.str) : Prop :=
  exists head support_docs docs texts,
    clause_block repr clause = Ok head
    /\ get clause "support_docs" (VList []) = Ok support_docs
    /\ iter support_docs = Ok docs
    /\ Forall2 (fun doc text => doc_block repr doc = Ok text) docs texts
    /\ block = head ++ Py.utf8 "

" ++ Py.join (Py.utf8 "

") texts.

(** A string with whitespace at its start or at its end. *)
Definition padded (s : Py.str) : Prop :=
  (exists c r, s = c :: r /\ Py.isspace c = true)
  \/ (exists r c, s = r ++ [c] /\ Py.isspace c = true).

(** A retrieval result of two clauses, the first with two documents, and
    the blocks computed for it. *)
Definition sample_clauses : list value := [clause_with_docs; clause_minimal].

Definition sample_blocks : list Py.str :=
  match context_blocks repr_unused (VList sample_clauses) with
  | Ok blocks => blocks
  | Raise _ => []
  end.

(* ===================================================================== *)
(** ** Counting and shapes used by the further properties                 *)
(* ===================================================================== *)

(** How many events of a trace satisfy a test. *)
Definition count {A : Type} (f : A -> bool) (l : list A) : nat :=
  List.length (filter f l).

(** What [', '.join(v)] accepts: a string, a dictionary, or a list whose
    items are all strings. *)
Definition is_str (v : value) : bool :=
  match v with VStr _ => true | _ => false end.

Definition joinable (v : value) : bool :=
  match v with
  | VStr _ | VDict _ => true
  | VList l => forallb is_str l
  | VNone | VBool _ | VInt _ => false
  end.

(** The value [d.get(key, default)] gives for a dictionary. *)
Definition field_or (record : value) (key : string) (default : value) : value :=
  match field record key with
  | Some x => x
  | None => default
  end.

Definition is_dict (v : value) : bool :=
  match v with VDict _ => true | _ => false end.

(** The embedder raises. *)
Definition services_encoder_down : services unit :=
  {| encode := fun _ => Failed (Py.utf8 "model not loaded");
     rpc_execute := fun _ _ => Returned (VList []);
     generate_content := fun _ _ => Returned sample_text |}.

(** The second record of the reply has no summary. *)
Definition services_malformed : services unit :=
  {| encode := fun _ => Returned tt;
     rpc_execute := fun _ _ => Returned (VList [clause_minimal; clause_bare]);
     generate_content := fun _ _ => Returned sample_text |}.

(* ===================================================================== *)
(** ** What the page displays (lines 110-115, 137-176)                    *)
(* ===================================================================== *)

(** The Streamlit calls inside the expanders: an expander opened with its
    label, a line of Markdown. *)
Inductive widget : Type :=
| Expander (label : Py.str)
| Markdown (body : Py.str).

(** Code that displays as it goes: the widgets shown so far, and the value
    or the exception it ends with.  What was shown before an exception
    stays shown. *)
Definition shows (A : Type) : Type := (list widget * result A)%type.

Definition show_ret {A : Type} (a : A) : shows A := ([], Ok a).

Definition show_bind {A B : Type} (m : shows A) (f : A -> shows B) : shows B :=
  match m with
  | (shown, Ok a) => let (more, r) := f a in (shown ++ more, r)
  | (shown, Raise e) => (shown, Raise e)
  end.

(** A call that displays. *)
Definition emit (w : widget) : shows unit := ([w], Ok tt).

(** An expression that displays nothing. *)
Definition eval {A : Type} (r : result A) : shows A := ([], r).

Declare Scope show_scope.
Delimit Scope show_scope with show.
Notation "x <~ m ;; k" := (show_bind m (fun x => k))
  (at level 61, m at next level, right associativity) : show_scope.
Notation "m ;;; k" := (show_bind m (fun _ => k))
  (at level 61, right associativity) : show_scope.

(** Lines 164-173: the text appended to [doc_blocks], without the label of
    the expander. *)
Definition doc_lines (repr : value -> Py.str) (doc : value) : result Py.str :=
  (title <- subscript doc "support_title" ;;
   summary <- subscript doc "support_summary" ;;
   guidance <- get doc "support_compliance_guidance" (lit "") ;;
   notes <- get doc "support_enforcement_notes" (lit "") ;;
   url <- subscript doc "support_url" ;;
   related <- get doc "support_related_sections" (lit "N/A") ;;
   publication_type <- get doc "support_publication_type" (lit "N/A") ;;
   published <- get doc "support_publication_date" (lit "N/A") ;;
   Ok (Py.strip (Py.utf8 "
            ✅ Support Doc: " ++ py_str repr title ++ Py.utf8 "
            - Summary: " ++ py_str repr summary ++ Py.utf8 "
            - Guidance: " ++ py_str repr guidance ++ Py.utf8 "
            - Notes: " ++ py_str repr notes ++ Py.utf8 "
            - URL: " ++ py_str repr url ++ Py.utf8 "
            - Related Sections: " ++ py_str repr related ++ Py.utf8 "
            - Type: " ++ py_str repr publication_type ++ Py.utf8 "
            - Published: " ++ py_str repr published ++ Py.utf8 "
            ")))%py.

Section Display.

Variable repr : value -> Py.str.

Local Open Scope show_scope.

(** Lines 138-151: the expander of a clause with its five lines, then
    [clause_block]. *)
Definition show_clause (clause : value) : shows Py.str :=
  section_id <~ eval (subscript clause "clause_section_id") ;;
  title <~ eval (subscript clause "clause_title") ;;
  emit (Expander (Py.utf8 "🔹 " ++ py_str repr section_id ++ Py.utf8 ": "
                  ++ py_str repr title)) ;;;
  summary <~ eval (subscript clause "clause_summary") ;;
  emit (Markdown (Py.utf8 "**Summary:** " ++ py_str repr summary)) ;;;
  violations <~ eval (get clause "violations_fy2024" (lit "N/A")) ;;
  emit (Markdown (Py.utf8 "**Violations (FY2024):** "
                  ++ py_str repr violations)) ;;;
  hazard_type <~ eval (get clause "hazard_type" (lit "N/A")) ;;
  emit (Markdown (Py.utf8 "**Hazard Type:** " ++ py_str repr hazard_type)) ;;;
  applies_to <~ eval (get clause "applies_to" (VList [])) ;;
  applies <~ eval (join_value ", " (or_ applies_to (VList []))) ;;
  emit (Markdown (Py.utf8 "**Applies To:** " ++ applies)) ;;;
  equipment <~ eval (get clause "protective_equipment" (lit "N/A")) ;;
  emit (Markdown (Py.utf8 "**Protective Equipment:** "
                  ++ py_str repr equipment)) ;;;
  eval (clause_block repr clause).

(** Lines 155-173: the expander of a document with its eight lines, then
    the text for [doc_blocks]. *)
Definition show_doc (doc : value) : shows Py.str :=
  label_title <~ eval (get doc "support_title" (lit "N/A")) ;;
  label_date <~ eval (get doc "support_publication_date" (lit "N/A")) ;;
  emit (Expander (Py.utf8 "📄 " ++ py_str repr label_title ++ Py.utf8 " | "
                  ++ py_str repr label_date)) ;;;
  emit (Markdown (Py.utf8 "---")) ;;;
  title <~ eval (subscript doc "support_title") ;;
  emit (Markdown (Py.utf8 "✅ **Supporting Document: " ++ py_str repr title
                  ++ Py.utf8 "**")) ;;;
  summary <~ eval (subscript doc "support_summary") ;;
  emit (Markdown (Py.utf8 "• **Summary:** " ++ py_str repr summary)) ;;;
  guidance <~ eval (get doc "support_compliance_guidance" (lit "")) ;;
  emit (Markdown (Py.utf8 "• **Compliance Guidance:** "
                  ++ py_str repr guidance)) ;;;
  notes <~ eval (get doc "support_enforcement_notes" (lit "")) ;;
  emit (Markdown (Py.utf8 "• **Enforcement Notes:** " ++ py_str repr notes)) ;;;
  revised <~ eval (get doc "support_revised_date" (lit "N/A")) ;;
  emit (Markdown (Py.utf8 "• **Revised Date:** " ++ py_str repr revised)) ;;;
  publication_type <~ eval (get doc "support_publication_type" (lit "N/A")) ;;
  emit (Markdown (Py.utf8 "• **Publication Type:** "
                  ++ py_str repr publication_type)) ;;;
  url <~ eval (subscript doc "support_url") ;;
  emit (Markdown (Py.utf8 "• **URL:** " ++ py_str repr url)) ;;;
  eval (doc_lines repr doc).

(** A displaying loop that appends one string per item. *)
Fixpoint for_show (body : value -> shows Py.str) (items : list value)
    (acc : list Py.str) : shows (list Py.str) :=
  match items with
  | [] => show_ret acc
  | x :: rest => b <~ body x ;; for_show body rest (acc ++ [b])
  end.

(** Lines 153-173 with what they display. *)
Definition show_docs (clause : value) : shows (list Py.str) :=
  support_docs <~ eval (get clause "support_docs" (VList [])) ;;
  docs <~ eval (iter support_docs) ;;
  for_show show_doc docs [].

(** Lines 138-176 for one clause. *)
Definition show_full (clause : value) : shows Py.str :=
  block <~ show_clause clause ;;
  blocks <~ show_docs clause ;;
  show_ret (block ++ Py.utf8 "

" ++ Py.join (Py.utf8 "

") blocks).

(** Lines 136-176 with what they display. *)
Definition show_context (clauses : value) : shows (list Py.str) :=
  items <~ eval (iter clauses) ;;
  for_show show_full items [].

(** Lines 111-115: the lines of the suggested questions, numbered from
    [idx] on. *)
Fixpoint show_questions (idx : Z) (questions : list value) : shows unit :=
  match questions with
  | [] => show_ret tt
  | q :: rest =>
      question <~ eval (subscript q "question") ;;
      emit (Markdown (Py.utf8 "### ❓ Q" ++ Py.str_of_int idx ++ Py.utf8 ": "
                      ++ py_str repr question)) ;;;
      why <~ eval (subscript q "why_llm_fails") ;;
      emit (Markdown (Py.utf8 "🔸 **Why LLMs Fail:** " ++ py_str repr why)) ;;;
      answer <~ eval (subscript q "correct_answer") ;;
      emit (Markdown (Py.utf8 "✅ **Correct Answer:** " ++ py_str repr answer)) ;;;
      emit (Markdown (Py.utf8 "---")) ;;;
      show_questions (idx + 1) rest
  end.

(** Lines 110-115: the panel of the suggested questions;
    [enumerate(demo_questions, 1)] counts from 1. *)
Definition demo_panel (questions : list value) : shows unit :=
  emit (Expander (Py.utf8 "📋 Suggested Test Questions (LLM Challenge Set)")) ;;;
  show_questions 1 questions.

End Display.

Definition is_expander (w : widget) : bool :=
  match w with Expander _ => true | Markdown _ => false end.

Definition is_markdown (w : widget) : bool :=
  match w with Markdown _ => true | Expander _ => false end.

(** The number of items the loop over [support_docs] would run over. *)
Definition n_docs (clause : value) : nat :=
  match iter (field_or clause "support_docs" (VList [])) with
  | Ok docs => List.length docs
  | Raise _ => O
  end.
(** Lines 10-36: [demo_questions]. *)
Definition demo_questions : list value :=
  [VDict [(Py.utf8 "question",
           lit "An HVAC technician is working on a low-slope roof where roofers are using a 6-ft warning line. Can the HVAC worker enter the warning line zone without a harness?");
          (Py.utf8 "why_llm_fails",
           lit "General models may assume the 6-ft warning line applies to all workers, missing that this exemption is only valid for roofing work.");
          (Py.utf8 "correct_answer",
           lit "No. The 6-ft warning line under §1926.501(b)(10) applies only to roofing workers. HVAC or other trades need fall protection or must work 15 ft from the edge. (LOI 20021115)")];
   VDict [(Py.utf8 "question",
           lit "A crew is erecting precast concrete wall panels, but says guardrails or PFAS would interfere with panel alignment. Can they skip conventional fall protection?");
          (Py.utf8 "why_llm_fails",
           lit "A general LLM might incorrectly claim that fall protection is always required above 6 feet, without considering infeasibility exceptions or the precast erection context.");
          (Py.utf8 "correct_answer",
           lit "Yes, but only if the employer creates a site-specific fall protection plan per §1926.502(k). This is allowed only as a last resort and OSHA will closely scrutinize feasibility claims. (LOI 20030926)")];
   VDict [(Py.utf8 "question",
           lit "A rebar cage is assembled on the ground and lifted vertically. Workers connect it while it's suspended. Is fall protection needed?");
          (Py.utf8 "why_llm_fails",
           lit "An LLM may confuse this with in-place rebar exceptions or misclassify it as scaffold work, failing to address suspended assembly rules.");
          (Py.utf8 "correct_answer",
           lit "Yes. Once suspended, any worker exposed to a fall of 6 feet or more must have fall protection per §1926.501(b)(5). Exceptions apply only to rebar built in place. (LOI 19950620)")];
   VDict [(Py.utf8 "question",
           lit "A worker crosses a concrete slab with a 70-ft by 7-ft depression that is 33 inches deep. Does this count as a hole requiring protection?");
          (Py.utf8 "why_llm_fails",
           lit "LLMs might say no fall protection is needed because the depression is less than 6 feet deep, ignoring OSHA's hole classification logic.");
          (Py.utf8 "correct_answer",
           lit "Yes. Due to its large area and depth, OSHA considers it a hole requiring protection (cover or guardrails) under §1926.501(b)(4)(ii). (LOI 20040930)")];
   VDict [(Py.utf8 "question",
           lit "During leading edge work, there’s no wall to tie off a control line near the edge. Can a controlled access zone still be used?");
          (Py.utf8 "why_llm_fails",
           lit "Most LLMs might think you must tie control lines directly to the edge or abandon the CAZ altogether.");
          (Py.utf8 "correct_answer",
           lit "Yes. According to LOI 20091008, control lines for a CAZ may be tied to temporary stanchions located up to 10 feet from the edge, as long as they restrict access and meet other criteria under §1926.501(b)(2)(i).")]].

(** The keys of a supporting document that its text for the prompt reads
    (lines 165-172) and those that its display reads (lines 155-163). *)
Definition prompt_keys : list string :=
  ["support_title"; "support_summary"; "support_compliance_guidance";
   "support_enforcement_notes"; "support_url"; "support_related_sections";
   "support_publication_type"; "support_publication_date"]%string.

Definition display_keys : list string :=
  ["support_title"; "support_publication_date"; "support_summary";
   "support_compliance_guidance"; "support_enforcement_notes";
   "support_revised_date"; "support_publication_type"; "support_url"]%string.

(** Two records hold the same under each of the keys. *)
Definition same_fields (keys : list string) (d1 d2 : value) : Prop :=
  Forall (fun key => field d1 key = field d2 key) keys.

(** A document with a revised date and related sections, and the same
    document with other values for the two. *)
Definition doc_dated : value :=
  VDict [(Py.utf8 "support_title", lit "LOI 20021115");
         (Py.utf8 "support_summary", lit "HVAC work is not roofing work.");
         (Py.utf8 "support_url", lit "https://www.osha.gov/loi/20021115");
         (Py.utf8 "support_revised_date", lit "2004-03-01");
         (Py.utf8 "support_related_sections", lit "1926.501(b)(10)")].

Definition doc_redated : value :=
  VDict [(Py.utf8 "support_title", lit "LOI 20021115");
         (Py.utf8 "support_summary", lit "HVAC work is not roofing work.");
         (Py.utf8 "support_url", lit "https://www.osha.gov/loi/20021115");
         (Py.utf8 "support_revised_date", lit "2019-11-15");
         (Py.utf8 "support_related_sections", lit "1926.501(b)(10)")].

Definition doc_related : value :=
  VDict [(Py.utf8 "support_title", lit "LOI 20021115");
         (Py.utf8 "support_summary", lit "HVAC work is not roofing work.");
         (Py.utf8 "support_url", lit "https://www.osha.gov/loi/20021115");
         (Py.utf8 "support_revised_date", lit "2004-03-01");
         (Py.utf8 "support_related_sections", lit "1926.502(k)")].

(** The keys the panel of suggested questions subscripts (lines 112-114). *)
Definition question_keys : list string :=
  ["question"; "why_llm_fails"; "correct_answer"]%string.

(** A record has every one of the keys. *)
Definition has_keys (keys : list string) (record : value) : bool :=
  forallb (fun key => match field record key with
                      | Some _ => true
                      | None => false
                      end) keys.

(** The keys of a supporting document that lines 162-169 subscript. *)
Definition doc_keys : list string :=
  ["support_title"; "support_summary"; "support_url"]%string.

(* ===================================================================== *)
(** ** Facts about strings                                                *)
(* ===================================================================== *)

Lemma eqb_eq (a b : Py.str) : Py.eqb a b = true <-> a = b.
Proof.
  revert b; induction a as [|x a IH]; intros [|y b]; simpl; split;
    try congruence; try reflexivity.
  - rewrite andb_true_iff, N.eqb_eq, IH. intros [-> ->]. reflexivity.
  - intros H; injection H as -> ->.
    rewrite andb_true_iff, N.eqb_eq, IH. split; reflexivity.
Qed.


Lemma starts_with_spec (a b : Py.str) :
  Py.starts_with a b = true <-> exists post, b = a ++ post.
Proof.
  revert b; induction a as [|x a IH]; intros b; simpl.
  - split; [intros _; exists b; reflexivity | reflexivity].
  - destruct b as [|y b].
    + split; [discriminate | intros [post H]; discriminate].
    + rewrite andb_true_iff, N.eqb_eq, IH. split.
      * intros [-> [post ->]]. exists post. reflexivity.
      * intros [post H]. injection H as -> ->. split; [reflexivity|].
        exists post. reflexivity.
Qed.

Lemma containsb_spec (b a : Py.str) :
  Py.containsb b a = true <-> Py.contains b a.
Proof.
  unfold Py.contains. induction b as [|y b IH].
  - simpl. rewrite orb_false_r, starts_with_spec. split.
    + intros [post H]. exists [], post. exact H.
    + intros [pre [post H]]. destruct pre as [|p pre]; [|discriminate].
      exists post. exact H.
  - cbn [Py.containsb]. rewrite orb_true_iff, starts_with_spec, IH. split.
    + intros [[post H] | [pre [post H]]].
      * exists [], post. exact H.
      * exists (y :: pre), post. rewrite H. reflexivity.
    + intros [pre [post H]]. destruct pre as [|p pre].
      * left. exists post. exact H.
      * right. injection H as _ H. exists pre, post. exact H.
Qed.

Lemma not_contains (b a : Py.str) :
  Py.containsb b a = false -> ~ Py.contains b a.
Proof.
  intros H C. apply containsb_spec in C. congruence.
Qed.

Lemma contains_refl (a : Py.str) : Py.contains a a.
Proof.
  exists [], []. rewrite app_nil_r. reflexivity.
Qed.

Lemma contains_app_l (b c a : Py.str) :
  Py.contains b a -> Py.contains (b ++ c) a.
Proof.
  intros [pre [post ->]]. exists pre, (post ++ c).
  rewrite <- !app_assoc. reflexivity.
Qed.

Lemma contains_app_r (b c a : Py.str) :
  Py.contains c a -> Py.contains (b ++ c) a.
Proof.
  intros [pre [post ->]]. exists (b ++ pre), post.
  rewrite <- !app_assoc. reflexivity.
Qed.

(** *** [strip] *)

Lemma lstrip_decomp (s : Py.str) :
  exists ws, s = ws ++ Py.lstrip s /\ Py.spaces ws.
Proof.
  induction s as [|c r [ws [E W]]]; simpl.
  - exists []. split; reflexivity.
  - destruct (Py.isspace c) eqn:Hc.
    + exists (c :: ws). split.
      * simpl. rewrite <- E. reflexivity.
      * unfold Py.spaces. simpl. rewrite Hc. exact W.
    + exists []. split; reflexivity.
Qed.

Lemma lstrip_head (s r : Py.str) (c : N) :
  Py.lstrip s = c :: r -> Py.isspace c = false.
Proof.
  induction s as [|a t IH]; simpl; [discriminate|].
  destruct (Py.isspace a) eqn:Ha; [exact IH|].
  intros H. injection H as <- _. exact Ha.
Qed.

Lemma lstrip_spaces (ws s : Py.str) :
  Py.spaces ws -> Py.lstrip (ws ++ s) = Py.lstrip s.
Proof.
  unfold Py.spaces. induction ws as [|c ws IH]; simpl; [reflexivity|].
  rewrite andb_true_iff. intros [-> H]. exact (IH H).
Qed.

Lemma lstrip_fix (c : N) (r : Py.str) :
  Py.isspace c = false -> Py.lstrip (c :: r) = c :: r.
Proof.
  intros H. simpl. rewrite H. reflexivity.
Qed.

Lemma rstrip_decomp (s : Py.str) :
  exists ws, s = Py.rstrip s ++ ws /\ Py.spaces ws.
Proof.
  induction s as [|c r [ws [E W]]]; simpl.
  - exists []. split; reflexivity.
  - destruct (Py.rstrip r) as [|x r'] eqn:Hr.
    + simpl in E. subst r. destruct (Py.isspace c) eqn:Hc.
      * exists (c :: ws). split; [reflexivity|].
        unfold Py.spaces. simpl. rewrite Hc. exact W.
      * exists ws. split; [reflexivity | exact W].
    + exists ws. split; [|exact W]. rewrite E at 1. reflexivity.
Qed.

Lemma rstrip_last (s r : Py.str) (c : N) :
  Py.rstrip s = r ++ [c] -> Py.isspace c = false.
Proof.
  revert r; induction s as [|a t IH]; intros r; simpl.
  - destruct r; discriminate.
  - destruct (Py.rstrip t) as [|x r'] eqn:Ht.
    + destruct (Py.isspace a) eqn:Ha.
      * destruct r; discriminate.
      * destruct r as [|y [|z r]]; simpl; try discriminate.
        intros H. injection H as <-. exact Ha.
    + destruct r as [|y r]; simpl.
      * discriminate.
      * intros H. injection H as _ H. exact (IH r H).
Qed.

Lemma rstrip_snoc (s : Py.str) (c : N) :
  Py.isspace c = false -> Py.rstrip (s ++ [c]) = s ++ [c].
Proof.
  intros Hc. induction s as [|a s IH]; simpl.
  - rewrite Hc. reflexivity.
  - rewrite IH. destruct (s ++ [c]) eqn:E; [|reflexivity].
    destruct s; discriminate.
Qed.

Lemma rstrip_spaces (s ws : Py.str) :
  Py.spaces ws -> Py.rstrip (s ++ ws) = Py.rstrip s.
Proof.
  unfold Py.spaces. intros W.
  assert (Hws : Py.rstrip ws = []).
  { induction ws as [|c ws IH]; simpl; [reflexivity|].
    simpl in W. apply andb_true_iff in W as [Hc W].
    rewrite (IH W), Hc. reflexivity. }
  induction s as [|a s IH]; simpl.
  - exact Hws.
  - rewrite IH. reflexivity.
Qed.

(** [strip] takes whitespace, and only whitespace, off both ends, and
    leaves none at either end. *)
Lemma strip_decomp (s : Py.str) :
  exists ws1 ws2, s = ws1 ++ Py.strip s ++ ws2 /\ Py.spaces ws1 /\ Py.spaces ws2.
Proof.
  unfold Py.strip.
  destruct (lstrip_decomp s) as [ws1 [E1 W1]].
  destruct (rstrip_decomp (Py.lstrip s)) as [ws2 [E2 W2]].
  exists ws1, ws2. split; [|split; assumption].
  rewrite <- E2. exact E1.
Qed.

Lemma strip_head (s r : Py.str) (c : N) :
  Py.strip s = c :: r -> Py.isspace c = false.
Proof.
  unfold Py.strip. intros H.
  destruct (rstrip_decomp (Py.lstrip s)) as [ws [E _]].
  rewrite H in E. simpl in E. exact (lstrip_head _ _ _ E).
Qed.

Lemma strip_last (s r : Py.str) (c : N) :
  Py.strip s = r ++ [c] -> Py.isspace c = false.
Proof.
  unfold Py.strip. apply rstrip_last.
Qed.

(** A string between a non-space first and a non-space last character
    keeps both when whitespace around it is stripped. *)
Lemma strip_frame (ws1 ws2 s : Py.str) (a b : N) :
  Py.spaces ws1 -> Py.spaces ws2 ->
  Py.isspace a = false -> Py.isspace b = false ->
  Py.strip (ws1 ++ (a :: s ++ [b]) ++ ws2) = a :: s ++ [b].
Proof.
  intros W1 W2 Ha Hb. unfold Py.strip.
  rewrite (lstrip_spaces _ _ W1). simpl app at 1.
  rewrite (lstrip_fix _ _ Ha).
  change (a :: (s ++ [b]) ++ ws2) with ((a :: s ++ [b]) ++ ws2).
  rewrite (rstrip_spaces _ _ W2).
  change (a :: s ++ [b]) with ((a :: s) ++ [b]).
  apply rstrip_snoc. exact Hb.
Qed.

Lemma strip_idem (s : Py.str) : Py.strip (Py.strip s) = Py.strip s.
Proof.
  destruct (Py.strip s) as [|a t] eqn:E; [reflexivity|].
  pose proof (strip_head _ _ _ E) as Ha.
  destruct (@exists_last _ (a :: t)) as [r [b Er]]; [discriminate|].
  assert (Hb : Py.isspace b = false).
  { apply (strip_last s r). rewrite E. exact Er. }
  rewrite Er. unfold Py.strip.
  destruct r as [|a' r'].
  - simpl. rewrite Hb. simpl. rewrite Hb. reflexivity.
  - simpl in Er. injection Er as <- _. simpl app.
    rewrite (lstrip_fix _ _ Ha).
    change (a :: r' ++ [b]) with ((a :: r') ++ [b]).
    apply rstrip_snoc. exact Hb.
Qed.

(** *** [join] *)

Lemma join_cons (sep p q : Py.str) (rest : list Py.str) :
  Py.join sep (p :: q :: rest) = p ++ sep ++ Py.join sep (q :: rest).
Proof. reflexivity. Qed.

Lemma join_app (sep : Py.str) (l1 l2 : list Py.str) :
  l1 <> [] -> l2 <> [] ->
  Py.join sep (l1 ++ l2) = Py.join sep l1 ++ sep ++ Py.join sep l2.
Proof.
  intros H1 H2. induction l1 as [|p l1 IH]; [congruence|].
  destruct l1 as [|q l1].
  - destruct l2 as [|r l2]; [congruence|]. reflexivity.
  - change ((p :: q :: l1) ++ l2) with (p :: q :: (l1 ++ l2)).
    rewrite !join_cons.
    change (q :: l1 ++ l2) with ((q :: l1) ++ l2).
    rewrite IH by discriminate. rewrite <- !app_assoc. reflexivity.
Qed.

(** Two parts of a joined string stand in it in the order of the list. *)
Lemma join_in_order (sep a b : Py.str) (l1 l2 l3 : list Py.str) :
  exists pre mid post,
    Py.join sep (l1 ++ a :: l2 ++ b :: l3) = pre ++ a ++ mid ++ b ++ post
    /\ pre ++ a = Py.join sep (l1 ++ [a])
    /\ pre ++ a ++ mid ++ b = Py.join sep (l1 ++ a :: l2 ++ [b]).
Proof.
  assert (Hsnoc : forall (l : list Py.str) (x : Py.str),
             exists pre, Py.join sep (l ++ [x]) = pre ++ x).
  { intros l x. destruct l as [|y l].
    - exists []. reflexivity.
    - exists (Py.join sep (y :: l) ++ sep).
      rewrite join_app by discriminate. simpl Py.join at 2.
      rewrite <- app_assoc. reflexivity. }
  destruct (Hsnoc l1 a) as [pre Hpre].
  destruct (Hsnoc (l1 ++ a :: l2) b) as [pm Hpm].
  assert (Hmid : exists mid, pm = pre ++ a ++ mid).
  { destruct l2 as [|c l2].
    - exists sep.
      rewrite join_app in Hpm by (try discriminate; destruct l1; discriminate).
      rewrite Hpre in Hpm. simpl Py.join in Hpm.
      rewrite <- !app_assoc in Hpm.
      rewrite !app_assoc in Hpm. apply app_inv_tail in Hpm.
      rewrite <- Hpm. rewrite <- !app_assoc. reflexivity.
    - destruct (Hsnoc (c :: l2) b) as [q Hq].
      exists (sep ++ q).
      replace ((l1 ++ a :: c :: l2) ++ [b])
        with ((l1 ++ [a]) ++ ((c :: l2) ++ [b])) in Hpm
        by (rewrite <- !app_assoc; reflexivity).
      rewrite join_app in Hpm
        by (try discriminate; destruct l1; discriminate).
      rewrite Hpre, Hq in Hpm.
      rewrite !app_assoc in Hpm. apply app_inv_tail in Hpm.
      rewrite <- Hpm. rewrite <- !app_assoc. reflexivity. }
  destruct Hmid as [mid ->].
  exists pre, mid,
    (match l3 with [] => [] | _ :: _ => sep ++ Py.join sep l3 end).
  split; [|split].
  - replace (l1 ++ a :: l2 ++ b :: l3)
      with (((l1 ++ a :: l2) ++ [b]) ++ l3)
      by (rewrite <- !app_assoc; reflexivity).
    destruct l3 as [|c l3].
    + rewrite !app_nil_r, Hpm, <- !app_assoc. reflexivity.
    + rewrite join_app
        by (try discriminate; destruct (l1 ++ a :: l2); discriminate).
      rewrite Hpm, <- !app_assoc. reflexivity.
  - symmetry. exact Hpre.
  - replace (l1 ++ a :: l2 ++ [b]) with ((l1 ++ a :: l2) ++ [b])
      by (rewrite <- !app_assoc; reflexivity).
    rewrite Hpm, <- !app_assoc. reflexivity.
Qed.

(** *** The loops *)

(** A loop that ends normally has appended, to what was there, the body's
    string for every item, in the order of the items. *)
Lemma for_append_spec (body : value -> result Py.str) (items : list value)
    (acc out : list Py.str) :
  for_append body items acc = Ok out <->
  exists bs, Forall2 (fun x b => body x = Ok b) items bs /\ out = acc ++ bs.
Proof.
  revert acc; induction items as [|x rest IH]; intros acc; simpl.
  - split.
    + intros H. injection H as <-. exists []. split; [constructor|].
      rewrite app_nil_r. reflexivity.
    + intros [bs [F ->]]. inversion F. rewrite app_nil_r. reflexivity.
  - destruct (body x) as [b|e] eqn:Hx; simpl.
    + rewrite IH. split.
      * intros [bs [F ->]]. exists (b :: bs). split.
        -- constructor; assumption.
        -- rewrite <- app_assoc. reflexivity.
      * intros [bs [F ->]]. inversion F as [|x' b' r' bs' Hb F']; subst.
        exists bs'. split; [exact F'|].
        assert (b' = b) by congruence. subst b'.
        rewrite <- app_assoc. reflexivity.
    + split; [discriminate|].
      intros [bs [F _]]. inversion F; congruence.
Qed.

(** A loop that raises does so at the first item whose body raises. *)
Lemma for_append_raise (body : value -> result Py.str) (items : list value)
    (acc : list Py.str) (e : exn) :
  for_append body items acc = Raise e <->
  exists done x rest bs,
    items = done ++ x :: rest
    /\ Forall2 (fun y b => body y = Ok b) done bs
    /\ body x = Raise e.
Proof.
  revert acc; induction items as [|x rest IH]; intros acc; simpl.
  - split; [discriminate|].
    intros [done [y [r [bs [E _]]]]]. destruct done; discriminate.
  - destruct (body x) as [b|e'] eqn:Hx; simpl.
    + rewrite IH. split.
      * intros [done [y [r [bs [-> [F Hy]]]]]].
        exists (x :: done), y, r, (b :: bs).
        repeat split; [constructor; assumption | exact Hy].
      * intros [done [y [r [bs [E [F Hy]]]]]].
        destruct done as [|d done].
        -- simpl in E. injection E as <- <-. congruence.
        -- simpl in E. injection E as <- ->.
           inversion F as [|? b' ? bs' Hb F']; subst.
           exists done, y, r, bs'. repeat split; assumption.
    + split.
      * intros H. injection H as ->.
        exists [], x, rest, []. repeat split; [constructor | exact Hx].
      * intros [done [y [r [bs [E [F Hy]]]]]].
        destruct done as [|d done].
        -- simpl in E. injection E as <- <-. congruence.
        -- simpl in E. injection E as <- ->.
           inversion F; congruence.
Qed.

(** *** Records *)

Lemma subscript_field (v x : value) (key : string) :
  field v key = Some x -> subscript v key = Ok x.
Proof.
  destruct v; simpl; try discriminate. intros ->. reflexivity.
Qed.

Lemma subscript_absent (items : list (Py.str * value)) (key : string) :
  field (VDict items) key = None ->
  subscript (VDict items) key = Raise (KeyError (Py.utf8 key)).
Proof.
  simpl. intros ->. reflexivity.
Qed.

Lemma get_field (v x default : value) (key : string) :
  field v key = Some x -> get v key default = Ok x.
Proof.
  destruct v; simpl; try discriminate. intros ->. reflexivity.
Qed.

Lemma get_absent (items : list (Py.str * value)) (default : value) (key : string) :
  field (VDict items) key = None -> get (VDict items) key default = Ok default.
Proof.
  simpl. intros ->. reflexivity.
Qed.

(** Two ways of writing the same text as pieces, compared after the
    pieces are flattened. *)
Ltac same_text :=
  cbn [app]; rewrite <- ?app_assoc; cbn [app]; vm_compute; reflexivity.

(** The block of a clause whose four defaulted fields take their default:
    [strip] removes the line feeds at both ends and nothing else. *)
Lemma strip_clause_defaults (section_id title summary : Py.str) :
  Py.strip (Py.utf8 "
🔹 " ++ section_id ++ Py.utf8 ": " ++ title ++ Py.utf8 "
Summary: " ++ summary ++ Py.utf8 "
Violations (FY2024): " ++ Py.utf8 "N/A" ++ Py.utf8 "
Hazard Type: " ++ Py.utf8 "N/A" ++ Py.utf8 "
Applies To: " ++ [] ++ Py.utf8 "
Protective Equipment: " ++ Py.utf8 "N/A" ++ Py.utf8 "
")
  = clause_block_defaults section_id title summary.
Proof.
  unfold clause_block_defaults.
  transitivity
    (Py.strip ([10] ++ (128313 :: ([32] ++ section_id ++ Py.utf8 ": "
       ++ title ++ Py.utf8 "
Summary: " ++ summary ++ Py.utf8 "
Violations (FY2024): N/A
Hazard Type: N/A
Applies To: 
Protective Equipment: N/") ++ [65]) ++ [10])).
  - f_equal. same_text.
  - rewrite strip_frame by reflexivity. same_text.
Qed.

(** *** The context blocks *)

Lemma doc_blocks_spec (repr : value -> Py.str) (clause : value)
    (texts : list Py.str) :
  doc_blocks repr clause = Ok texts <->
  exists support_docs docs,
    get clause "support_docs" (VList []) = Ok support_docs
    /\ iter support_docs = Ok docs
    /\ Forall2 (fun doc text => doc_block repr doc = Ok text) docs texts.
Proof.
  unfold doc_blocks.
  destruct (get clause "support_docs" (VList [])) as [support_docs|e] eqn:G;
    cbn [bind].
  - destruct (iter support_docs) as [docs|e] eqn:I; cbn [bind].
    + rewrite for_append_spec. split.
      * intros [bs [F ->]]. exists support_docs, docs.
        split; [reflexivity | split; [exact I | exact F]].
      * intros [sd [ds [E1 [E2 F]]]].
        injection E1 as <-. rewrite I in E2. injection E2 as <-.
        exists texts. split; [exact F | reflexivity].
    + split; [discriminate|].
      intros [sd [ds [E1 [E2 _]]]]. injection E1 as <-. congruence.
  - split; [discriminate|].
    intros [sd [ds [E1 _]]]. discriminate.
Qed.

Lemma full_block_spec (repr : value -> Py.str) (clause : value)
    (block : Py.str) :
  full_block repr clause = Ok block <-> block_of repr clause block.
Proof.
  unfold full_block, block_of.
  destruct (clause_block repr clause) as [head|e]; cbn [bind].
  - destruct (doc_blocks repr clause) as [texts|e] eqn:D; cbn [bind].
    + apply doc_blocks_spec in D as [sd [ds [E1 [E2 F]]]]. split.
      * intros H. injection H as <-.
        exists head, sd, ds, texts.
        split; [reflexivity|]. repeat (split; [assumption|]). reflexivity.
      * intros [h [sd' [ds' [ts [Eh [E1' [E2' [F' ->]]]]]]]].
        injection Eh as <-.
        assert (sd' = sd) by congruence. subst sd'.
        assert (ds' = ds) by congruence. subst ds'.
        assert (Hts : doc_blocks repr clause = Ok ts).
        { apply doc_blocks_spec. exists sd, ds. auto. }
        assert (Ht : doc_blocks repr clause = Ok texts).
        { apply doc_blocks_spec. exists sd, ds. auto. }
        rewrite Hts in Ht. injection Ht as ->. reflexivity.
    + split; [discriminate|].
      intros [h [sd [ds [ts [_ [E1 [E2 [F _]]]]]]]].
      assert (Hts : doc_blocks repr clause = Ok ts).
      { apply doc_blocks_spec. exists sd, ds. auto. }
      congruence.
  - split; [discriminate|].
    intros [h [sd [ds [ts [Eh _]]]]]. discriminate.
Qed.

Lemma context_blocks_spec (repr : value -> Py.str) (clauses : list value)
    (blocks : list Py.str) :
  context_blocks repr (VList clauses) = Ok blocks <->
  Forall2 (fun clause block => full_block repr clause = Ok block) clauses blocks.
Proof.
  unfold context_blocks. cbn [iter bind]. rewrite for_append_spec. split.
  - intros [bs [F ->]]. exact F.
  - intros F. exists blocks. split; [exact F | reflexivity].
Qed.


(** *** The prompts *)

Lemma grounded_contains_context (query : Py.str) (blocks : list Py.str) :
  Py.contains (grounded_prompt query blocks) (assembled_context blocks).
Proof.
  exists (grounded_head ++ Py.strip query ++ grounded_middle), grounded_tail.
  unfold grounded_prompt, assembled_context.
  rewrite <- !app_assoc. reflexivity.
Qed.

Lemma grounded_contains_question (query : Py.str) (blocks : list Py.str) :
  Py.contains (grounded_prompt query blocks) (Py.strip query).
Proof.
  exists grounded_head,
    (grounded_middle ++ Py.join Py.nl blocks ++ grounded_tail).
  reflexivity.
Qed.

Lemma grounded_head_contains_fallback :
  Py.contains grounded_head fallback_instruction.
Proof.
  apply containsb_spec. vm_compute. reflexivity.
Qed.

Lemma raw_head_contains_fallback :
  Py.contains raw_head fallback_instruction.
Proof.
  apply containsb_spec. vm_compute. reflexivity.
Qed.

Lemma grounded_prompt_nonempty (query : Py.str) (blocks : list Py.str) :
  grounded_prompt query blocks <> [].
Proof.
  unfold grounded_prompt.
  assert (H : exists t, grounded_head = 10 :: t)
    by (eexists; vm_compute; reflexivity).
  destruct H as [t ->]. discriminate.
Qed.

Lemma sample_blocks_computed :
  context_blocks repr_unused (VList sample_clauses) = Ok sample_blocks.
Proof.
  vm_compute. reflexivity.
Qed.

Lemma strip_padded (s : Py.str) : padded s -> Py.strip s <> s.
Proof.
  intros [[c [r [-> Hc]]] | [r [c [-> Hc]]]] E.
  - apply strip_head in E. congruence.
  - apply strip_last in E. congruence.
Qed.

(** A string without whitespace at either end is left as it is. *)
Lemma strip_unpadded (s : Py.str) : ~ padded s -> Py.strip s = s.
Proof.
  intros Hn.
  destruct (strip_decomp s) as [ws1 [ws2 [E [W1 W2]]]].
  destruct ws1 as [|c ws1].
  - destruct ws2 as [|d ws2].
    + simpl in E. rewrite app_nil_r in E. symmetry. exact E.
    + exfalso. apply Hn. right.
      destruct (@exists_last _ (d :: ws2)) as [r [c Er]]; [discriminate|].
      exists (Py.strip s ++ r), c. split.
      * rewrite E at 1. rewrite Er. simpl. rewrite app_assoc. reflexivity.
      * unfold Py.spaces in W2. rewrite Er, forallb_app in W2.
        apply andb_true_iff in W2 as [_ W2]. simpl in W2.
        rewrite andb_true_r in W2. exact W2.
  - exfalso. apply Hn. left.
    exists c, (ws1 ++ Py.strip s ++ ws2). split; [exact E|].
    unfold Py.spaces in W1. simpl in W1.
    apply andb_true_iff in W1 as [W1 _]. exact W1.
Qed.

Lemma raw_prompt_injective (q q' : Py.str) :
  raw_prompt q' = raw_prompt q -> q' = q.
Proof.
  unfold raw_prompt. intros H.
  apply app_inv_head in H. apply app_inv_tail in H. exact H.
Qed.

(** *** The query flow *)

(** The calls of the retrieval branch never include the generation call
    and show no answer. *)
Lemma retrieve_calls (repr : value -> Py.str) (vector : Type)
    (svc : services vector) (query : Py.str) :
  existsb is_generate (fst (retrieve repr svc query)) = false
  /\ existsb is_answer (fst (retrieve repr svc query)) = false.
Proof.
  unfold retrieve.
  destruct (encode svc query) as [embedding|detail]; [|split; reflexivity].
  destruct (rpc_execute svc embedding 5%Z); split; reflexivity.
Qed.

(** The generation step makes the call once, as its first event. *)
Lemma generate_shape (vector : Type) (svc : services vector) (m : mode)
    (prompt : Py.str) :
  exists shown,
    generate svc m prompt = CallGenerate m prompt :: shown
    /\ existsb is_generate shown = false.
Proof.
  unfold generate.
  destruct (generate_content svc m prompt); eexists; split; reflexivity.
Qed.

(** The three ways a press of the button can go. *)
Lemma search_cases (repr : value -> Py.str) (vector : Type)
    (svc : services vector) (query : Py.str) (answer_mode : mode) :
  (query = []
   /\ search repr svc query answer_mode = ([StWarning warning_message], Stopped))
  \/ (exists calls e,
        answer_mode = RegulatedBuilds
        /\ search repr svc query answer_mode
           = (StWrite (searching_for query) :: calls, Uncaught e)
        /\ existsb is_generate calls = false)
  \/ (exists calls prompt,
        search repr svc query answer_mode
        = ((StWrite (searching_for query) :: calls)
             ++ generate svc answer_mode prompt, Finished)
        /\ existsb is_generate calls = false
        /\ existsb is_answer calls = false).
Proof.
  unfold search. destruct query as [|c rest]; cbn [Py.not_].
  - left. split; reflexivity.
  - right. destruct answer_mode.
    + pose proof (retrieve_calls repr vector svc (c :: rest)) as [Hg Ha].
      destruct (retrieve repr svc (c :: rest)) as [calls [blocks|e]];
        cbn [fst] in Hg, Ha.
      * right. exists calls, (grounded_prompt (c :: rest) blocks).
        split; [reflexivity | split; assumption].
      * left. exists calls, e.
        split; [reflexivity | split; [reflexivity | assumption]].
    + right. exists [], (raw_prompt (c :: rest)).
      split; [reflexivity | split; reflexivity].
Qed.

Lemma existsb_false_not_in {A : Type} (f : A -> bool) (l : list A) (x : A) :
  existsb f l = false -> f x = true -> ~ In x l.
Proof.
  intros H Hx Hin.
  assert (E : existsb f l = true) by (apply existsb_exists; exists x; auto).
  congruence.
Qed.

Lemma strip_not_padded (s : Py.str) : ~ padded (Py.strip s).
Proof.
  intros [[c [r [E Hc]]] | [r [c [E Hc]]]].
  - apply strip_head in E. congruence.
  - apply strip_last in E. congruence.
Qed.

(** A generation call in the trace of a run is the call of its last step,
    made with the mode of the run. *)
Lemma generate_call_in_search (repr : value -> Py.str) (vector : Type)
    (svc : services vector) (query : Py.str) (answer_mode m : mode)
    (prompt : Py.str) :
  In (CallGenerate m prompt) (fst (search repr svc query answer_mode)) ->
  m = answer_mode
  /\ exists calls,
       search repr svc query answer_mode
       = ((StWrite (searching_for query) :: calls) ++ generate svc m prompt,
          Finished)
       /\ existsb is_generate calls = false
       /\ existsb is_answer calls = false.
Proof.
  intros Hin.
  destruct (search_cases repr vector svc query answer_mode)
    as [[_ E] | [[calls [e [_ [E Hg]]]] | [calls [p [E [Hg Ha]]]]]];
    rewrite E in Hin; cbn [fst] in Hin.
  - destruct Hin as [H|[]]. discriminate.
  - destruct Hin as [H|H]; [discriminate|].
    exfalso. revert H. apply (existsb_false_not_in is_generate); auto.
  - apply in_app_or in Hin as [[H|H]|H].
    + discriminate.
    + exfalso. revert H. apply (existsb_false_not_in is_generate); auto.
    + destruct (generate_shape vector svc answer_mode p) as [shown [Es Hs]].
      rewrite Es in H. destruct H as [H|H].
      * injection H as <- <-. split; [reflexivity|].
        exists calls. split; [exact E | split; assumption].
      * exfalso. revert H.
        apply (existsb_false_not_in is_generate); auto.
Qed.

Lemma sample_call_in_search :
  In (CallGenerate RegulatedBuilds (grounded_prompt question sample_blocks))
    (fst (search repr_unused services_ok question RegulatedBuilds)).
Proof.
  assert (E : search repr_unused services_ok question RegulatedBuilds
              = ([StWrite (searching_for question); CallEncode question;
                  CallRpc tt 5%Z; StSubheader clauses_heading]
                   ++ generate services_ok RegulatedBuilds
                        (grounded_prompt question sample_blocks), Finished)).
  { unfold search, retrieve. cbn [services_ok encode rpc_execute].
    change (Py.not_ question) with false. cbn iota zeta.
    change (or_ (VList [clause_with_docs; clause_minimal]) (VList []))
      with (VList sample_clauses).
    rewrite sample_blocks_computed. reflexivity. }
  rewrite E. cbn [fst]. apply in_or_app. right. left. reflexivity.
Qed.

(* ===================================================================== *)
(** ** Records that have the keys the loop subscripts                     *)
(* ===================================================================== *)

(** [d.get(key, default)] on a dictionary never raises. *)
Lemma get_field_or (items : list (Py.str * value)) (key : string)
    (default : value) :
  get (VDict items) key default = Ok (field_or (VDict items) key default).
Proof.
  unfold get, field_or, field. destruct (lookup items (Py.utf8 key)); reflexivity.
Qed.

(** [doc_block] on a dictionary that has the three subscripted keys. *)
Lemma doc_block_present (repr : value -> Py.str)
    (items : list (Py.str * value)) (title summary url : value) :
  field (VDict items) "support_title" = Some title ->
  field (VDict items) "support_summary" = Some summary ->
  field (VDict items) "support_url" = Some url ->
  doc_block repr (VDict items)
  = Ok (Py.strip (Py.utf8 "
            ✅ Support Doc: " ++ py_str repr title ++ Py.utf8 "
            - Summary: " ++ py_str repr summary ++ Py.utf8 "
            - Guidance: "
       ++ py_str repr (field_or (VDict items) "support_compliance_guidance" (lit ""))
       ++ Py.utf8 "
            - Notes: "
       ++ py_str repr (field_or (VDict items) "support_enforcement_notes" (lit ""))
       ++ Py.utf8 "
            - URL: " ++ py_str repr url ++ Py.utf8 "
            - Related Sections: "
       ++ py_str repr (field_or (VDict items) "support_related_sections" (lit "N/A"))
       ++ Py.utf8 "
            - Type: "
       ++ py_str repr (field_or (VDict items) "support_publication_type" (lit "N/A"))
       ++ Py.utf8 "
            - Published: "
       ++ py_str repr (field_or (VDict items) "support_publication_date" (lit "N/A"))
       ++ Py.utf8 "
            ")).
Proof.
  intros Ht Hs Hu. unfold doc_block.
  rewrite !get_field_or. cbn [bind].
  rewrite (subscript_field _ _ _ Ht), (subscript_field _ _ _ Hs). cbn [bind].
  rewrite (subscript_field _ _ _ Hu). reflexivity.
Qed.

Lemma doc_block_has_keys (repr : value -> Py.str) (doc : value) :
  has_keys doc_keys doc = true -> exists text, doc_block repr doc = Ok text.
Proof.
  unfold has_keys, doc_keys. cbn [forallb].
  destruct (field doc "support_title") as [title|] eqn:Ht; [|discriminate].
  destruct (field doc "support_summary") as [summary|] eqn:Hs; [|discriminate].
  destruct (field doc "support_url") as [url|] eqn:Hu; [|discriminate].
  intros _. destruct doc as [| | | | |items]; try discriminate.
  eexists. exact (doc_block_present repr items title summary url Ht Hs Hu).
Qed.

(** The inner loop over documents that all have the three keys returns a
    text for each of them. *)
Lemma doc_blocks_has_keys (repr : value -> Py.str) (docs : list value) :
  forallb (has_keys doc_keys) docs = true ->
  exists texts, Forall2 (fun doc text => doc_block repr doc = Ok text) docs texts.
Proof.
  induction docs as [|doc rest IH]; cbn [forallb]; intros H.
  - exists []. constructor.
  - apply andb_true_iff in H as [Hdoc Hrest].
    destruct (doc_block_has_keys repr doc Hdoc) as [text Htext].
    destruct (IH Hrest) as [texts F].
    exists (text :: texts). constructor; assumption.
Qed.

(* ===================================================================== *)
(** ** Worked examples                                                    *)
(* ===================================================================== *)

Example utf8_decodes : Py.utf8 "🔹 a’—" = [128313; 32; 97; 8217; 8212].
Proof. reflexivity. Qed.

Example str_of_int_negative : Py.str_of_int (-120) = Py.utf8 "-120".
Proof. reflexivity. Qed.

Example str_of_int_zero : Py.str_of_int 0 = Py.utf8 "0".
Proof. reflexivity. Qed.

Example strip_both_ends :
  Py.strip (Py.utf8 "
  a b	 ") = Py.utf8 "a b".
Proof. reflexivity. Qed.

Example clause_minimal_block :
  clause_block repr_unused clause_minimal = Ok (Py.utf8 "🔹 1926.501(b)(10): Roofing work on low-slope roofs
Summary: Warning lines are for roofers only.
Violations (FY2024): N/A
Hazard Type: N/A
Applies To: 
Protective Equipment: N/A").
Proof. vm_compute. reflexivity. Qed.

Example clause_with_docs_block :
  full_block repr_unused clause_with_docs = Ok (Py.utf8 "🔹 1926.501(b)(5): Formwork and reinforcing steel
Summary: Protection from falls of 6 feet or more.
Violations (FY2024): 120
Hazard Type: N/A
Applies To: ironworkers, laborers
Protective Equipment: N/A

✅ Support Doc: LOI 20021115
            - Summary: HVAC work is not roofing work.
            - Guidance: 
            - Notes: 
            - URL: https://www.osha.gov/loi/20021115
            - Related Sections: N/A
            - Type: N/A
            - Published: N/A

✅ Support Doc: LOI 19950620
            - Summary: Suspended rebar cages.
            - Guidance: 
            - Notes: 
            - URL: https://www.osha.gov/loi/19950620
            - Related Sections: N/A
            - Type: N/A
            - Published: N/A").
Proof. vm_compute. reflexivity. Qed.

(** A field that is present and holds [None] is not replaced by the
    default of [get]: it renders as [None]; [applies_to] alone falls back
    on the empty list, through [or []]. *)
Example clause_with_null_fields :
  clause_block repr_unused
    (VDict [(Py.utf8 "clause_section_id", lit "1926.502(k)");
            (Py.utf8 "clause_title", lit "Fall protection plan");
            (Py.utf8 "clause_summary", VNone);
            (Py.utf8 "violations_fy2024", VNone);
            (Py.utf8 "hazard_type", VNone);
            (Py.utf8 "applies_to", VNone);
            (Py.utf8 "protective_equipment", VNone)])
  = Ok (Py.utf8 "🔹 1926.502(k): Fall protection plan
Summary: None
Violations (FY2024): None
Hazard Type: None
Applies To: 
Protective Equipment: None").
Proof. vm_compute. reflexivity. Qed.

Example run_with_failing_generator :
  search repr_unused services_gemini_down question RawGemini
  = ([StWrite (searching_for question);
      CallGenerate RawGemini (raw_prompt question);
      StError failure_notice;
      StCode (Py.utf8 "429 quota exceeded")], Finished).
Proof. vm_compute. reflexivity. Qed.

Example run_with_failing_retriever :
  search repr_unused services_rpc_down question RegulatedBuilds
  = ([StWrite (searching_for question); CallEncode question; CallRpc tt 5%Z],
     Uncaught (ServiceError (Py.utf8 "connection refused"))).
Proof. vm_compute. reflexivity. Qed.

Example run_grounded :
  search repr_unused services_ok question_padded RegulatedBuilds
  = ([StWrite (searching_for question_padded);
      CallEncode question_padded; CallRpc tt 5%Z;
      StSubheader clauses_heading;
      CallGenerate RegulatedBuilds (grounded_prompt question sample_blocks);
      StSubheader answer_heading;
      StMarkdown (Py.utf8 "No. See 1926.501(b)(10).");
      StDownloadButton (Py.utf8 "No. See 1926.501(b)(10).")], Finished).
Proof. vm_compute. reflexivity. Qed.

Example run_with_malformed_clause :
  search repr_unused
    {| encode := fun _ => Returned tt;
       rpc_execute := fun _ _ => Returned (VList [clause_minimal; clause_bare]);
       generate_content := fun _ _ => Returned sample_text |}
    question RegulatedBuilds
  = ([StWrite (searching_for question); CallEncode question; CallRpc tt 5%Z;
      StSubheader clauses_heading],
     Uncaught (KeyError (Py.utf8 "clause_summary"))).
Proof. vm_compute. reflexivity. Qed.

(* ===================================================================== *)
(** ** Missing fields of a clause record                                  *)
(* ===================================================================== *)

(** C1, as stated, fails: a clause record with section id and title whose
    summary, violation count, hazard type, applies_to and protective
    equipment are all absent makes [clause['clause_summary']] raise
    [KeyError], so no block is produced for it and the assembly of the
    whole retrieval result raises. *)
Lemma clause_without_summary_raises :
  field clause_bare "clause_section_id" <> None
  /\ field clause_bare "clause_title" <> None
  /\ field clause_bare "clause_summary" = None
  /\ field clause_bare "violations_fy2024" = None
  /\ field clause_bare "hazard_type" = None
  /\ field clause_bare "applies_to" = None
  /\ field clause_bare "protective_equipment" = None
  /\ clause_block repr_unused clause_bare
     = Raise (KeyError (Py.utf8 "clause_summary"))
  /\ context_blocks repr_unused (VList [clause_bare])
     = Raise (KeyError (Py.utf8 "clause_summary")).
Proof.
  repeat split; try discriminate; reflexivity.
Qed.

(** C1, amended: for every clause record that has its section id, title
    and summary, whose violation count, hazard type, applies_to and
    protective equipment are all absent, and whose [support_docs] is absent
    or a list of documents that each have [support_title],
    [support_summary] and [support_url], the loop does not raise on it:
    every document renders, [clause_block] is the text with a line for each
    of the four fields ([N/A] for the violation count, the hazard type and
    the protective equipment, the empty string for applies_to), the block
    of the clause is that text, two line feeds and the document texts, it
    contains the four placeholder lines, and it is what the assembly puts
    at the position of the clause in every retrieval result whose other
    clauses assemble. *)
Theorem clause_missing_fields_assembled (repr : value -> Py.str)
    (clause section_id title summary : value) (docs : list value) :
  field clause "clause_section_id" = Some section_id ->
  field clause "clause_title" = Some title ->
  field clause "clause_summary" = Some summary ->
  field clause "violations_fy2024" = None ->
  field clause "hazard_type" = None ->
  field clause "applies_to" = None ->
  field clause "protective_equipment" = None ->
  field_or clause "support_docs" (VList []) = VList docs ->
  forallb (has_keys doc_keys) docs = true ->
  exists texts block,
    Forall2 (fun doc text => doc_block repr doc = Ok text) docs texts
    /\ doc_blocks repr clause = Ok texts
    /\ clause_block repr clause
       = Ok (clause_block_defaults (py_str repr section_id)
               (py_str repr title) (py_str repr summary))
    /\ block = clause_block_defaults (py_str repr section_id)
                 (py_str repr title) (py_str repr summary)
               ++ Py.utf8 "

" ++ Py.join (Py.utf8 "

") texts
    /\ full_block repr clause = Ok block
    /\ context_blocks repr (VList [clause]) = Ok [block]
    /\ Py.contains block placeholder_lines
    /\ forall before after blocks_before blocks_after,
         context_blocks repr (VList before) = Ok blocks_before ->
         context_blocks repr (VList after) = Ok blocks_after ->
         context_blocks repr (VList (before ++ clause :: after))
         = Ok (blocks_before ++ block :: blocks_after).
Proof.
  intros Hid Htitle Hsummary Hv Hh Ha Hp Hdocs Hkeys.
  destruct clause as [| | | | |items]; try discriminate.
  assert (Hblock : clause_block repr (VDict items)
                   = Ok (clause_block_defaults (py_str repr section_id)
                           (py_str repr title) (py_str repr summary))).
  { unfold clause_block.
    rewrite (subscript_field _ _ _ Hid), (subscript_field _ _ _ Htitle),
      (subscript_field _ _ _ Hsummary).
    rewrite (get_absent _ _ _ Hv), (get_absent _ _ _ Hh),
      (get_absent _ _ _ Ha), (get_absent _ _ _ Hp).
    cbn [bind]. change (join_value ", " (or_ (VList []) (VList [])))
      with (@Ok Py.str []).
    cbn [bind]. f_equal. apply strip_clause_defaults. }
  destruct (doc_blocks_has_keys repr docs Hkeys) as [texts Htexts].
  assert (Hrender : doc_blocks repr (VDict items) = Ok texts).
  { apply doc_blocks_spec. exists (VList docs), docs.
    split; [|split; [reflexivity | exact Htexts]].
    rewrite get_field_or, Hdocs. reflexivity. }
  assert (Hfull : full_block repr (VDict items)
                  = Ok (clause_block_defaults (py_str repr section_id)
                          (py_str repr title) (py_str repr summary)
                        ++ Py.utf8 "

" ++ Py.join (Py.utf8 "

") texts)).
  { unfold full_block. rewrite Hblock, Hrender. reflexivity. }
  exists texts. eexists.
  split; [exact Htexts|]. split; [exact Hrender|]. split; [exact Hblock|].
  split; [reflexivity|]. split; [exact Hfull|].
  split; [|split].
  - apply context_blocks_spec. constructor; [exact Hfull | constructor].
  - apply contains_app_l. unfold clause_block_defaults, placeholder_lines.
    exists (Py.utf8 "🔹 " ++ py_str repr section_id ++ Py.utf8 ": "
            ++ py_str repr title ++ Py.utf8 "
Summary: " ++ py_str repr summary), [].
    rewrite app_nil_r, <- !app_assoc. reflexivity.
  - intros before after blocks_before blocks_after Hb Hafter.
    apply context_blocks_spec in Hb. apply context_blocks_spec in Hafter.
    apply context_blocks_spec. apply Forall2_app; [exact Hb|].
    constructor; [exact Hfull | exact Hafter].
Qed.

Lemma clause_missing_fields_assembled_witness :
  exists block,
    context_blocks repr_unused (VList [clause_docs_only]) = Ok [block]
    /\ Py.contains block placeholder_lines.
Proof.
  destruct (clause_missing_fields_assembled repr_unused clause_docs_only
              (lit "1926.501(b)(10)") (lit "Roofing work on low-slope roofs")
              (lit "Warning lines are for roofers only.") [doc_minimal])
    as [texts [block [_ [_ [_ [_ [_ [Hcontext [Hlines _]]]]]]]]];
    try (vm_compute; reflexivity).
  exists block. split; [exact Hcontext | exact Hlines].
Defined.

(* ===================================================================== *)
(** ** Validation of the query                                            *)
(* ===================================================================== *)

(** C2, as stated, fails: a query of three blanks is whitespace only, yet
    [not query] is false for it.  In raw mode the generation call is made
    with it and the run ends normally; in grounded mode the embedding, the
    retrieval and the generation calls are all made. *)
Lemma blank_query_is_processed :
  Py.spaces question_blank
  /\ Py.strip question_blank = []
  /\ existsb is_generate (fst (search repr_unused services_ok question_blank RawGemini)) = true
  /\ snd (search repr_unused services_ok question_blank RawGemini) = Finished
  /\ existsb is_encode (fst (search repr_unused services_ok question_blank RegulatedBuilds)) = true
  /\ existsb is_rpc (fst (search repr_unused services_ok question_blank RegulatedBuilds)) = true
  /\ existsb is_generate (fst (search repr_unused services_ok question_blank RegulatedBuilds)) = true.
Proof.
  repeat split; vm_compute; reflexivity.
Qed.

(** C2, amended: for the empty query string, in either mode and whatever
    the collaborators, the submission is rejected: the run consists of the
    warning alone and stops, so that nothing is embedded, retrieved or
    generated.  Every non-empty query, those of whitespace only included,
    passes the check: the run reports the search, does not stop there, and
    calls the embedder (grounded mode) or the generator (raw mode). *)
Theorem empty_query_rejected (repr : value -> Py.str) (vector : Type)
    (svc : services vector) (answer_mode : mode) :
  search repr svc [] answer_mode = ([StWarning warning_message], Stopped)
  /\ forall (c : N) (rest : Py.str),
       exists events out,
         search repr svc (c :: rest) answer_mode
         = (StWrite (searching_for (c :: rest)) :: events, out)
         /\ out <> Stopped
         /\ existsb is_processing events = true.
Proof.
  split; [reflexivity|].
  intros c rest. unfold search. cbn [Py.not_].
  destruct answer_mode.
  - unfold retrieve.
    destruct (encode svc (c :: rest)) as [embedding|detail].
    + destruct (rpc_execute svc embedding 5%Z) as [data|detail].
      * cbn zeta.
        destruct (context_blocks repr (or_ data (VList []))) as [blocks|e];
          eexists; eexists;
          (split; [reflexivity | split; [discriminate | reflexivity]]).
      * eexists; eexists;
          (split; [reflexivity | split; [discriminate | reflexivity]]).
    + eexists; eexists;
        (split; [reflexivity | split; [discriminate | reflexivity]]).
  - destruct (generate_shape vector svc RawGemini (raw_prompt (c :: rest)))
      as [shown [Es _]].
    rewrite Es. eexists; eexists.
    split; [reflexivity | split; [discriminate | reflexivity]].
Qed.

(* ===================================================================== *)
(** ** The instruction section of the two prompts                         *)
(* ===================================================================== *)

(** C3, as stated, fails: the raw-mode prompt of a question carries the
    sentence that restricts the answer to the clause summaries, supporting
    documents and enforcement notes, and the word "knowledge" occurs
    nowhere in it. *)
Lemma raw_prompt_keeps_grounding_instruction :
  Py.contains (raw_prompt question) grounding_instruction
  /\ ~ Py.contains (raw_prompt question) (Py.utf8 "knowledge").
Proof.
  split.
  - apply containsb_spec. vm_compute. reflexivity.
  - apply not_contains. vm_compute. reflexivity.
Qed.

(** C3, amended: the fixed instruction section of the raw-mode prompt is
    the one of the grounded-mode prompt, character for character: both
    prompts start with the same text, which directs the model to use only
    the information provided in the clause summaries, supporting documents
    and enforcement notes and does not mention general knowledge; the
    prompts differ only after it, from the heading of the question on. *)
Theorem raw_instructions_same_as_grounded :
  exists instructions,
    (forall query,
        raw_prompt query
        = instructions ++ Py.utf8 "

---
Question:
" ++ query ++ raw_tail)
    /\ (forall query blocks,
        grounded_prompt query blocks
        = instructions ++ Py.utf8 "

---

❓ **User Question**:
" ++ Py.strip query ++ grounded_middle ++ assembled_context blocks
          ++ grounded_tail)
    /\ Py.contains instructions grounding_instruction
    /\ Py.contains instructions fallback_instruction
    /\ ~ Py.contains instructions (Py.utf8 "knowledge").
Proof.
  exists (firstn 1058 raw_head).
  split; [|split; [|split; [|split]]].
  - intros query. unfold raw_prompt.
    rewrite (app_assoc (firstn 1058 raw_head)).
    apply (f_equal (fun head => head ++ _)). vm_compute. reflexivity.
  - intros query blocks. unfold grounded_prompt, assembled_context.
    rewrite (app_assoc (firstn 1058 raw_head)).
    apply (f_equal (fun head => head ++ _)). vm_compute. reflexivity.
  - apply containsb_spec. vm_compute. reflexivity.
  - apply containsb_spec. vm_compute. reflexivity.
  - apply not_contains. vm_compute. reflexivity.
Qed.

(* ===================================================================== *)
(** ** The assembled context                                              *)
(* ===================================================================== *)




(** C5, as stated, fails: the grounded template embeds [query.strip()]
    (line 198), so for a question with blanks at its ends and an empty
    retrieval result the prompt holds the stripped question and does not
    hold the question. *)
Lemma padded_question_not_in_prompt :
  context_blocks repr_unused (VList []) = Ok []
  /\ padded question_padded
  /\ Py.contains (grounded_prompt question_padded [])
       (Py.strip question_padded)
  /\ ~ Py.contains (grounded_prompt question_padded []) question_padded.
Proof.
  split; [reflexivity|]. split; [|split].
  - left. exists 32, (tl question_padded). split; vm_compute; reflexivity.
  - apply grounded_contains_question.
  - apply not_contains. vm_compute. reflexivity.
Qed.

(** C5, amended: for an empty retrieval result the loop appends nothing,
    the assembled context is the empty string, and the grounded prompt is
    still a non-empty string that contains item 8 of the instructions,
    which tells the model to write "Not clear from provided context." when
    the answer is unclear, and the question stripped of the whitespace at
    its ends, as the grounded template embeds it: hence the question itself
    whenever it has no whitespace at its start or end. *)
Theorem empty_retrieval_prompt (repr : value -> Py.str) (query : Py.str) :
  context_blocks repr (VList []) = Ok []
  /\ context_blocks repr (or_ VNone (VList [])) = Ok []
  /\ assembled_context [] = []
  /\ grounded_prompt query [] <> []
  /\ Py.contains (grounded_prompt query []) (Py.strip query)
  /\ (~ padded query -> Py.contains (grounded_prompt query []) query)
  /\ Py.contains (grounded_prompt query []) fallback_instruction
  /\ Py.contains fallback_instruction
       (Py.dquote ++ Py.utf8 "Not clear from provided context." ++ Py.dquote).
Proof.
  split; [reflexivity|]. split; [reflexivity|]. split; [reflexivity|].
  split; [apply grounded_prompt_nonempty|].
  split; [apply grounded_contains_question|].
  split; [|split].
  - intros Hn. rewrite <- (strip_unpadded query Hn) at 2.
    apply grounded_contains_question.
  - unfold grounded_prompt. apply contains_app_l.
    exact grounded_head_contains_fallback.
  - apply containsb_spec. vm_compute. reflexivity.
Qed.

Lemma empty_retrieval_prompt_witness :
  grounded_prompt question [] <> []
  /\ Py.contains (grounded_prompt question []) question
  /\ Py.contains (grounded_prompt question []) fallback_instruction.
Proof.
  destruct (empty_retrieval_prompt repr_unused question)
    as [_ [_ [_ [Hne [_ [Hq [Hf _]]]]]]].
  split; [exact Hne|]. split; [|exact Hf].
  apply Hq. intros Hp. apply (strip_padded question Hp).
  vm_compute. reflexivity.
Defined.

(** C7: for every retrieval result whose assembly ends normally, the
    blocks are the texts of the clauses position by position, and the text
    of a clause holds the texts of its supporting documents position by
    position after the clause's own lines; a block that comes before
    another one in retrieval order stands before it in the assembled
    context, the context up to it being the context of the clauses up to
    it.  Nothing is sorted. *)
Theorem order_preserved (repr : value -> Py.str) (clauses : list value)
    (blocks : list Py.str) :
  context_blocks repr (VList clauses) = Ok blocks ->
  Forall2 (block_of repr) clauses blocks
  /\ forall l1 a l2 b l3,
       blocks = l1 ++ a :: l2 ++ b :: l3 ->
       exists pre mid post,
         assembled_context blocks = pre ++ a ++ mid ++ b ++ post
         /\ pre ++ a = assembled_context (l1 ++ [a])
         /\ pre ++ a ++ mid ++ b = assembled_context (l1 ++ a :: l2 ++ [b]).
Proof.
  intros H. apply context_blocks_spec in H. split.
  - induction H as [|clause block cs bs Hb _ IH]; constructor.
    + apply full_block_spec. exact Hb.
    + exact IH.
  - intros l1 a l2 b l3 ->. unfold assembled_context. apply join_in_order.
Qed.

Lemma order_preserved_witness :
  Forall2 (block_of repr_unused) sample_clauses sample_blocks
  /\ forall l1 a l2 b l3,
       sample_blocks = l1 ++ a :: l2 ++ b :: l3 ->
       exists pre mid post,
         assembled_context sample_blocks = pre ++ a ++ mid ++ b ++ post
         /\ pre ++ a = assembled_context (l1 ++ [a])
         /\ pre ++ a ++ mid ++ b = assembled_context (l1 ++ a :: l2 ++ [b]).
Proof.
  apply (order_preserved repr_unused sample_clauses sample_blocks).
  vm_compute. reflexivity.
Defined.

(* ===================================================================== *)
(** ** The two modes                                                      *)
(* ===================================================================== *)

(** C6: the grounded prompt contains the assembled context as a
    substring, for every question and all blocks, and in a grounded run
    whose retrieval and assembly succeed the prompt sent to the generator
    is the grounded prompt of the assembled blocks.  A raw run makes no
    embedding and no retrieval call, the only prompt it sends is the fixed
    head, the question and the fixed tail, and it is the same run whatever
    the embedder and the retriever give back. *)
Theorem mode_isolation (repr : value -> Py.str) (vector : Type)
    (svc : services vector) (query : Py.str) :
  (forall blocks,
      Py.contains (grounded_prompt query blocks) (assembled_context blocks))
  /\ (forall embedding data blocks,
        Py.not_ query = false ->
        encode svc query = Returned embedding ->
        rpc_execute svc embedding 5%Z = Returned data ->
        context_blocks repr (or_ data (VList [])) = Ok blocks ->
        In (CallGenerate RegulatedBuilds (grounded_prompt query blocks))
          (fst (search repr svc query RegulatedBuilds))
        /\ forall m prompt,
             In (CallGenerate m prompt)
               (fst (search repr svc query RegulatedBuilds)) ->
             prompt = grounded_prompt query blocks)
  /\ (forall (repr' : value -> Py.str) (svc' : services vector),
        generate_content svc' RawGemini (raw_prompt query)
        = generate_content svc RawGemini (raw_prompt query) ->
        search repr' svc' query RawGemini = search repr svc query RawGemini)
  /\ existsb is_encode (fst (search repr svc query RawGemini)) = false
  /\ existsb is_rpc (fst (search repr svc query RawGemini)) = false
  /\ (forall m prompt,
        In (CallGenerate m prompt) (fst (search repr svc query RawGemini)) ->
        m = RawGemini /\ prompt = raw_head ++ query ++ raw_tail).
Proof.
  split; [intros blocks; apply grounded_contains_context|].
  split; [|split; [|split; [|split]]].
  - intros embedding data blocks Hq He Hr Hc.
    assert (E : search repr svc query RegulatedBuilds
                = ((StWrite (searching_for query)
                     :: [CallEncode query; CallRpc embedding 5%Z;
                         StSubheader clauses_heading])
                    ++ generate svc RegulatedBuilds
                         (grounded_prompt query blocks), Finished)).
    { unfold search, retrieve. rewrite Hq, He, Hr. cbn zeta.
      rewrite Hc. reflexivity. }
    destruct (generate_shape vector svc RegulatedBuilds
                (grounded_prompt query blocks)) as [shown [Es Hs]].
    rewrite E. cbn [fst]. split.
    + apply in_or_app. right. rewrite Es. left. reflexivity.
    + intros m prompt Hin.
      apply in_app_or in Hin as [Hin|Hin].
      * cbn [In] in Hin.
        destruct Hin as [H|[H|[H|[H|[]]]]]; discriminate.
      * rewrite Es in Hin. destruct Hin as [H|H].
        -- injection H as _ <-. reflexivity.
        -- exfalso. revert H.
           apply (existsb_false_not_in is_generate); auto.
  - intros repr' svc' H. unfold search.
    destruct (Py.not_ query); [reflexivity|].
    unfold generate. rewrite H. reflexivity.
  - unfold search. destruct (Py.not_ query); [reflexivity|].
    unfold generate.
    destruct (generate_content svc RawGemini (raw_prompt query)); reflexivity.
  - unfold search. destruct (Py.not_ query); [reflexivity|].
    unfold generate.
    destruct (generate_content svc RawGemini (raw_prompt query)); reflexivity.
  - intros m prompt Hin.
    apply generate_call_in_search in Hin as [-> [calls [E _]]].
    split; [reflexivity|].
    unfold search in E. destruct (Py.not_ query); [discriminate|].
    injection E as E.
    destruct (generate_shape vector svc RawGemini (raw_prompt query))
      as [s1 [E1 H1]].
    destruct (generate_shape vector svc RawGemini prompt) as [s2 [E2 H2]].
    rewrite E1, E2 in E.
    assert (Hin : In (CallGenerate RawGemini prompt)
                    (CallGenerate (vector:=vector) RawGemini (raw_prompt query) :: s1)).
    { rewrite E. apply in_or_app. right. left. reflexivity. }
    destruct Hin as [H|H].
    + injection H as <-. reflexivity.
    + exfalso. revert H. apply (existsb_false_not_in is_generate); auto.
Qed.

Lemma mode_isolation_witness :
  Py.contains (grounded_prompt question sample_blocks)
    (assembled_context sample_blocks)
  /\ In (CallGenerate RegulatedBuilds (grounded_prompt question sample_blocks))
       (fst (search repr_unused services_ok question RegulatedBuilds))
  /\ search repr_unused services_rpc_down question RawGemini
     = search repr_unused services_ok question RawGemini.
Proof.
  destruct (mode_isolation repr_unused unit services_ok question)
    as [H1 [H2 [H3 _]]].
  split; [apply H1|]. split.
  - apply (H2 tt (VList sample_clauses) sample_blocks);
      vm_compute; reflexivity.
  - apply H3. reflexivity.
Defined.

(* ===================================================================== *)
(** ** Failures of the collaborators                                      *)
(* ===================================================================== *)



(** C9: when the generation call of a run raises, the run ends with the
    generic failure notice followed by the raw error detail; the call was
    made once, and no answer is shown.  When it returns a text, the answer
    that is shown (and offered for download) is that text stripped:
    whitespace, and nothing else, is taken off both ends, and none is left
    at either end. *)
Theorem generation_outcome (repr : value -> Py.str) (vector : Type)
    (svc : services vector) (query : Py.str) (answer_mode m : mode)
    (prompt : Py.str) :
  In (CallGenerate m prompt) (fst (search repr svc query answer_mode)) ->
  (forall detail,
      generate_content svc m prompt = Failed detail ->
      exists before,
        search repr svc query answer_mode
        = (before ++ [CallGenerate m prompt; StError failure_notice;
                      StCode detail], Finished)
        /\ existsb is_generate before = false
        /\ existsb is_answer before = false)
  /\ (forall text,
        generate_content svc m prompt = Returned text ->
        exists before,
          search repr svc query answer_mode
          = (before ++ [CallGenerate m prompt; StSubheader answer_heading;
                        StMarkdown (Py.strip text);
                        StDownloadButton (Py.strip text)], Finished)
          /\ existsb is_generate before = false
          /\ (exists ws1 ws2,
                text = ws1 ++ Py.strip text ++ ws2
                /\ Py.spaces ws1 /\ Py.spaces ws2)
          /\ ~ padded (Py.strip text)).
Proof.
  intros Hin.
  apply generate_call_in_search in Hin as [-> [calls [E [Hg Ha]]]].
  split.
  - intros detail Hf.
    exists (StWrite (searching_for query) :: calls).
    unfold generate in E. rewrite Hf in E.
    split; [exact E | split; assumption].
  - intros text Hr.
    exists (StWrite (searching_for query) :: calls).
    unfold generate in E. rewrite Hr in E.
    split; [exact E|]. split; [exact Hg|].
    split; [apply strip_decomp | apply strip_not_padded].
Qed.

Lemma generation_outcome_witness :
  (exists before,
      search repr_unused services_gemini_down question RawGemini
      = (before ++ [CallGenerate RawGemini (raw_prompt question);
                    StError failure_notice;
                    StCode (Py.utf8 "429 quota exceeded")], Finished)
      /\ existsb is_generate before = false
      /\ existsb is_answer before = false)
  /\ (exists before,
        search repr_unused services_ok question RegulatedBuilds
        = (before ++ [CallGenerate RegulatedBuilds
                        (grounded_prompt question sample_blocks);
                      StSubheader answer_heading;
                      StMarkdown (Py.strip sample_text);
                      StDownloadButton (Py.strip sample_text)], Finished)
        /\ existsb is_generate before = false
        /\ (exists ws1 ws2,
              sample_text = ws1 ++ Py.strip sample_text ++ ws2
              /\ Py.spaces ws1 /\ Py.spaces ws2)
        /\ ~ padded (Py.strip sample_text)).
Proof.
  assert (Hdown : In (CallGenerate RawGemini (raw_prompt question))
                    (fst (search repr_unused services_gemini_down question
                            RawGemini))).
  { unfold search. change (Py.not_ question) with false. cbn iota.
    right. left. reflexivity. }
  destruct (generation_outcome repr_unused unit services_gemini_down question
              RawGemini RawGemini (raw_prompt question) Hdown) as [Hfail _].
  destruct (generation_outcome repr_unused unit services_ok question
              RegulatedBuilds RegulatedBuilds
              (grounded_prompt question sample_blocks)
              sample_call_in_search) as [_ Hok].
  split.
  - apply (Hfail (Py.utf8 "429 quota exceeded")). reflexivity.
  - apply (Hok sample_text). reflexivity.
Defined.

(* ===================================================================== *)
(** ** The question in the two prompts                                    *)
(* ===================================================================== *)

(** C10: the grounded prompt embeds the question stripped of leading and
    trailing whitespace, so that it is the same prompt for a question and
    for its stripped form; the raw prompt embeds the question as typed, so
    that two different questions never give the same raw prompt.  For a
    question with whitespace at its start or end the two modes hence embed
    different strings: the stripped question differs from the question,
    and so do their raw prompts. *)
Theorem question_embedded_by_mode (query : Py.str) (blocks : list Py.str) :
  grounded_prompt query blocks
  = grounded_head ++ Py.strip query ++ grounded_middle
      ++ assembled_context blocks ++ grounded_tail
  /\ raw_prompt query = raw_head ++ query ++ raw_tail
  /\ grounded_prompt (Py.strip query) blocks = grounded_prompt query blocks
  /\ (forall query', raw_prompt query' = raw_prompt query -> query' = query)
  /\ (padded query ->
      Py.strip query <> query
      /\ raw_prompt (Py.strip query) <> raw_prompt query).
Proof.
  split; [reflexivity|]. split; [reflexivity|]. split.
  - unfold grounded_prompt. rewrite strip_idem. reflexivity.
  - split.
    + intros query'. apply raw_prompt_injective.
    + intros Hp. pose proof (strip_padded query Hp) as Hne.
      split; [exact Hne|].
      intros E. apply Hne. apply raw_prompt_injective. exact E.
Qed.

Lemma question_embedded_by_mode_witness :
  padded question_padded
  /\ Py.strip question_padded = question
  /\ Py.strip question_padded <> question_padded
  /\ raw_prompt (Py.strip question_padded) <> raw_prompt question_padded
  /\ grounded_prompt question_padded sample_blocks
     = grounded_prompt question sample_blocks.
Proof.
  assert (Hp : padded question_padded).
  { left. exists 32, (tl question_padded).
    split; vm_compute; reflexivity. }
  assert (Hs : Py.strip question_padded = question)
    by (vm_compute; reflexivity).
  destruct (question_embedded_by_mode question_padded sample_blocks)
    as [_ [_ [Hg [_ Hpad]]]].
  destruct (Hpad Hp) as [Hne Hraw].
  split; [exact Hp|]. split; [exact Hs|]. split; [exact Hne|].
  split; [exact Hraw|].
  rewrite <- Hg, Hs. reflexivity.
Defined.

(* ===================================================================== *)
(** ** Further properties of the query flow                               *)
(* ===================================================================== *)

Lemma count_app {A : Type} (f : A -> bool) (l1 l2 : list A) :
  count f (l1 ++ l2) = (count f l1 + count f l2)%nat.
Proof.
  unfold count. rewrite filter_app, length_app. reflexivity.
Qed.

(** When the embedder raises in a grounded run, the run ends there with
    that exception: the trace is the search line and the embedding call,
    the retrieval service and the generator are never called. *)
Theorem embedder_failure_aborts (repr : value -> Py.str) (vector : Type)
    (svc : services vector) (query detail : Py.str) :
  Py.not_ query = false ->
  encode svc query = Failed detail ->
  search repr svc query RegulatedBuilds
  = ([StWrite (searching_for query); CallEncode query],
     Uncaught (ServiceError detail))
  /\ existsb is_rpc (fst (search repr svc query RegulatedBuilds)) = false
  /\ existsb is_generate (fst (search repr svc query RegulatedBuilds)) = false.
Proof.
  intros Hq He.
  assert (E : search repr svc query RegulatedBuilds
              = ([StWrite (searching_for query); CallEncode query],
                 Uncaught (ServiceError detail))).
  { unfold search, retrieve. rewrite Hq, He. reflexivity. }
  rewrite E. split; [reflexivity | split; reflexivity].
Qed.

Lemma embedder_failure_aborts_witness :
  search repr_unused services_encoder_down question RegulatedBuilds
  = ([StWrite (searching_for question); CallEncode question],
     Uncaught (ServiceError (Py.utf8 "model not loaded"))).
Proof.
  assert (Hq : Py.not_ question = false) by (vm_compute; reflexivity).
  apply (embedder_failure_aborts repr_unused unit services_encoder_down
           question (Py.utf8 "model not loaded") Hq eq_refl).
Defined.

(** When the assembly of the context raises (a record without a required
    field, a reply that is not a list of records), the run ends with that
    exception after the retrieval call: no prompt is built and the
    generator is never called.  For a reply that is a list, the exception
    is the one of the first clause whose block raises, all clauses before
    it having rendered. *)
Theorem malformed_clause_aborts_run (repr : value -> Py.str) (vector : Type)
    (svc : services vector) (query : Py.str) (embedding : vector)
    (data : value) (e : exn) :
  Py.not_ query = false ->
  encode svc query = Returned embedding ->
  rpc_execute svc embedding 5%Z = Returned data ->
  context_blocks repr (or_ data (VList [])) = Raise e ->
  search repr svc query RegulatedBuilds
  = ([StWrite (searching_for query); CallEncode query;
      CallRpc embedding 5%Z; StSubheader clauses_heading], Uncaught e)
  /\ existsb is_generate (fst (search repr svc query RegulatedBuilds)) = false
  /\ forall clauses,
       or_ data (VList []) = VList clauses ->
       exists done bad rest blocks,
         clauses = done ++ bad :: rest
         /\ Forall2 (fun clause block => full_block repr clause = Ok block)
              done blocks
         /\ full_block repr bad = Raise e.
Proof.
  intros Hq He Hr Hc.
  assert (E : search repr svc query RegulatedBuilds
              = ([StWrite (searching_for query); CallEncode query;
                  CallRpc embedding 5%Z; StSubheader clauses_heading],
                 Uncaught e)).
  { unfold search, retrieve. rewrite Hq, He, Hr. cbn zeta.
    rewrite Hc. reflexivity. }
  rewrite E. split; [reflexivity|]. split; [reflexivity|].
  intros clauses Hl. rewrite Hl in Hc.
  unfold context_blocks in Hc. cbn [iter bind] in Hc.
  apply for_append_raise in Hc as [done [bad [rest [blocks [E1 [F Hb]]]]]].
  exists done, bad, rest, blocks. split; [exact E1 | split; assumption].
Qed.

Lemma malformed_clause_aborts_run_witness :
  search repr_unused services_malformed question RegulatedBuilds
  = ([StWrite (searching_for question); CallEncode question;
      CallRpc tt 5%Z; StSubheader clauses_heading],
     Uncaught (KeyError (Py.utf8 "clause_summary"))).
Proof.
  assert (Hq : Py.not_ question = false) by (vm_compute; reflexivity).
  assert (Hc : context_blocks repr_unused
                 (or_ (VList [clause_minimal; clause_bare]) (VList []))
               = Raise (KeyError (Py.utf8 "clause_summary")))
    by (vm_compute; reflexivity).
  apply (malformed_clause_aborts_run repr_unused unit services_malformed
           question tt
           (VList [clause_minimal; clause_bare])
           (KeyError (Py.utf8 "clause_summary")) Hq eq_refl eq_refl Hc).
Defined.

(** Closes the facts about an explicit trace: the counts by computation,
    the memberships by cases on the events. *)
Ltac trace_facts :=
  repeat match goal with
  | |- _ /\ _ => split
  | |- _ <-> _ => split
  | |- forall _, _ => intro
  | H : False |- _ => contradiction
  | H : _ \/ _ |- _ => destruct H
  | H : In _ _ |- _ => progress cbn in H
  | H : count _ _ = _ |- _ => progress cbn in H
  | H : _ = _ |- _ =>
      first [ discriminate H | injection H; clear H; intros; subst ]
  | |- (_ <= _)%nat => cbn; lia
  | |- _ = _ => first [ reflexivity | assumption | cbn; lia ]
  end.

(** The calls of a run, whatever the mode and the collaborators: each of
    the three collaborators is called at most once; the retrieval service
    only after the embedder, with the embedding it returned and a match
    count of 5; the embedder with the query as typed; the generator with
    the mode of the run, and in grounded mode only after the retrieval
    call.  A raw run calls neither the embedder nor the retrieval service.
    The run ends normally exactly when the generator was called (whether
    or not that call succeeded), and it stops exactly when the query is
    empty. *)
Theorem run_call_discipline (repr : value -> Py.str) (vector : Type)
    (svc : services vector) (query : Py.str) (answer_mode : mode)
    (events : list (event vector)) (out : outcome) :
  search repr svc query answer_mode = (events, out) ->
  (count is_encode events <= 1)%nat
  /\ (count is_rpc events <= count is_encode events)%nat
  /\ (count is_generate events <= 1)%nat
  /\ (out = Finished <-> count is_generate events = 1%nat)
  /\ (out = Stopped <-> query = [])
  /\ (answer_mode = RawGemini ->
      count is_encode events = 0%nat /\ count is_rpc events = 0%nat)
  /\ (answer_mode = RegulatedBuilds -> count is_generate events = 1%nat ->
      count is_rpc events = 1%nat)
  /\ (forall q, In (CallEncode q) events -> q = query)
  /\ (forall v k, In (CallRpc v k) events ->
      k = 5%Z /\ encode svc query = Returned v)
  /\ (forall m p, In (CallGenerate m p) events -> m = answer_mode).
Proof.
  unfold search, retrieve, generate.
  destruct query as [|c rest]; cbn [Py.not_];
    [| destruct answer_mode;
       [ destruct (encode svc (c :: rest)) as [embedding|detail] eqn:He;
         [ destruct (rpc_execute svc embedding 5%Z) as [data|detail] eqn:Hr;
           [ cbn zeta;
             destruct (context_blocks repr (or_ data (VList [])))
               as [blocks|e];
             [ destruct (generate_content svc RegulatedBuilds
                           (grounded_prompt (c :: rest) blocks)) | ]
           | ]
         | ]
       | destruct (generate_content svc RawGemini (raw_prompt (c :: rest))) ] ];
    intros H; injection H as <- <-; trace_facts.
Qed.

Lemma run_call_discipline_witness :
  (count is_encode (fst (search repr_unused services_ok question RegulatedBuilds)) <= 1)%nat
  /\ count is_generate (fst (search repr_unused services_ok question RegulatedBuilds)) = 1%nat
  /\ (forall q,
        In (CallEncode q)
          (fst (search repr_unused services_ok question RegulatedBuilds)) ->
        q = question).
Proof.
  destruct (run_call_discipline repr_unused unit services_ok question
              RegulatedBuilds _ _ (surjective_pairing _))
    as [H1 [_ [_ [[H4 _] [_ [_ [_ [H8 _]]]]]]]].
  split; [exact H1|]. split; [|exact H8].
  apply H4. vm_compute. reflexivity.
Defined.

(* ===================================================================== *)
(** ** Further properties of the blocks                                   *)
(* ===================================================================== *)

Lemma all_str_chars (s : Py.str) :
  all_str (map (fun c => VStr [c]) s) = Ok (map (fun c => [c]) s).
Proof.
  induction s as [|c s IH]; simpl; [reflexivity|]. rewrite IH. reflexivity.
Qed.

Lemma all_str_keys (items : list (Py.str * value)) :
  all_str (map (fun kv => VStr (fst kv)) items) = Ok (map fst items).
Proof.
  induction items as [|kv items IH]; simpl; [reflexivity|].
  rewrite IH. reflexivity.
Qed.

Lemma all_str_cases (l : list value) :
  if forallb is_str l then exists ss, all_str l = Ok ss
  else all_str l = Raise TypeError.
Proof.
  induction l as [|v l IH]; simpl.
  - exists []. reflexivity.
  - destruct v; simpl; try reflexivity.
    destruct (forallb is_str l).
    + destruct IH as [ss ->]. eexists. reflexivity.
    + rewrite IH. reflexivity.
Qed.

(** [sep.join(v)] returns for the joinable values and raises [TypeError]
    for all others. *)
Lemma join_value_cases (sep : string) (v : value) :
  if joinable v then exists s, join_value sep v = Ok s
  else join_value sep v = Raise TypeError.
Proof.
  unfold join_value. destruct v; simpl; try reflexivity.
  - rewrite all_str_chars. eexists. reflexivity.
  - pose proof (all_str_cases l) as H. destruct (forallb is_str l).
    + destruct H as [ss ->]. eexists. reflexivity.
    + rewrite H. reflexivity.
  - rewrite all_str_keys. eexists. reflexivity.
Qed.

(** [clause_block] on a dictionary that has the three subscripted keys. *)
Lemma clause_block_present (repr : value -> Py.str)
    (items : list (Py.str * value)) (section_id title summary : value) :
  field (VDict items) "clause_section_id" = Some section_id ->
  field (VDict items) "clause_title" = Some title ->
  field (VDict items) "clause_summary" = Some summary ->
  clause_block repr (VDict items)
  = (applies <- join_value ", "
                  (or_ (field_or (VDict items) "applies_to" (VList []))
                     (VList [])) ;;
     Ok (Py.strip (Py.utf8 "
🔹 " ++ py_str repr section_id ++ Py.utf8 ": " ++ py_str repr title ++ Py.utf8 "
Summary: " ++ py_str repr summary ++ Py.utf8 "
Violations (FY2024): "
       ++ py_str repr (field_or (VDict items) "violations_fy2024" (lit "N/A"))
       ++ Py.utf8 "
Hazard Type: "
       ++ py_str repr (field_or (VDict items) "hazard_type" (lit "N/A"))
       ++ Py.utf8 "
Applies To: " ++ applies ++ Py.utf8 "
Protective Equipment: "
       ++ py_str repr (field_or (VDict items) "protective_equipment" (lit "N/A"))
       ++ Py.utf8 "
")))%py.
Proof.
  intros Hid Ht Hs. unfold clause_block.
  rewrite (subscript_field _ _ _ Hid), (subscript_field _ _ _ Ht),
    (subscript_field _ _ _ Hs).
  rewrite !get_field_or. reflexivity.
Qed.

(** When and how [clause_block] raises: [TypeError] for a record that is
    not a dictionary; [KeyError] with the first missing key among section
    id, title and summary, asked for in this order; [TypeError] when the
    three are present and [applies_to] holds a true value that cannot be
    joined (a number, [True], a list with an item that is not a string).
    In every other case it returns a block: a missing, [None] or empty
    [applies_to] and any value of the other fields are accepted. *)
Theorem clause_block_outcome (repr : value -> Py.str) (clause : value) :
  (is_dict clause = false -> clause_block repr clause = Raise TypeError)
  /\ (is_dict clause = true ->
      field clause "clause_section_id" = None ->
      clause_block repr clause = Raise (KeyError (Py.utf8 "clause_section_id")))
  /\ (field clause "clause_section_id" <> None ->
      field clause "clause_title" = None ->
      clause_block repr clause = Raise (KeyError (Py.utf8 "clause_title")))
  /\ (field clause "clause_section_id" <> None ->
      field clause "clause_title" <> None ->
      field clause "clause_summary" = None ->
      clause_block repr clause = Raise (KeyError (Py.utf8 "clause_summary")))
  /\ (field clause "clause_section_id" <> None ->
      field clause "clause_title" <> None ->
      field clause "clause_summary" <> None ->
      if joinable (or_ (field_or clause "applies_to" (VList [])) (VList []))
      then exists block, clause_block repr clause = Ok block
      else clause_block repr clause = Raise TypeError).
Proof.
  split; [|split; [|split; [|split]]].
  - destruct clause; try discriminate; reflexivity.
  - destruct clause as [| | | | |items]; try discriminate.
    intros _ H. unfold clause_block.
    rewrite (subscript_absent _ _ H). reflexivity.
  - intros H1 H2.
    destruct clause as [| | | | |items];
      try (exfalso; apply H1; reflexivity).
    unfold clause_block.
    destruct (field (VDict items) "clause_section_id") as [x|] eqn:E1;
      [|congruence].
    rewrite (subscript_field _ _ _ E1), (subscript_absent _ _ H2).
    reflexivity.
  - intros H1 H2 H3.
    destruct clause as [| | | | |items];
      try (exfalso; apply H1; reflexivity).
    unfold clause_block.
    destruct (field (VDict items) "clause_section_id") as [x|] eqn:E1;
      [|congruence].
    destruct (field (VDict items) "clause_title") as [y|] eqn:E2;
      [|congruence].
    rewrite (subscript_field _ _ _ E1), (subscript_field _ _ _ E2),
      (subscript_absent _ _ H3).
    reflexivity.
  - intros H1 H2 H3.
    destruct clause as [| | | | |items];
      try (exfalso; apply H1; reflexivity).
    destruct (field (VDict items) "clause_section_id") as [x|] eqn:E1;
      [|congruence].
    destruct (field (VDict items) "clause_title") as [y|] eqn:E2;
      [|congruence].
    destruct (field (VDict items) "clause_summary") as [z|] eqn:E3;
      [|congruence].
    rewrite (clause_block_present repr items x y z E1 E2 E3).
    pose proof (join_value_cases ", "
                  (or_ (field_or (VDict items) "applies_to" (VList []))
                     (VList []))) as J.
    destruct (joinable (or_ (field_or (VDict items) "applies_to" (VList []))
                          (VList []))).
    + destruct J as [s ->]. cbn [bind]. eexists. reflexivity.
    + rewrite J. reflexivity.
Qed.

Lemma clause_block_outcome_witness :
  clause_block repr_unused (VStr (Py.utf8 "not a record")) = Raise TypeError
  /\ clause_block repr_unused clause_bare
     = Raise (KeyError (Py.utf8 "clause_summary"))
  /\ exists block, clause_block repr_unused clause_with_docs = Ok block.
Proof.
  destruct (clause_block_outcome repr_unused (VStr (Py.utf8 "not a record")))
    as [H1 _].
  destruct (clause_block_outcome repr_unused clause_bare)
    as [_ [_ [_ [H4 _]]]].
  destruct (clause_block_outcome repr_unused clause_with_docs)
    as [_ [_ [_ [_ H5]]]].
  split; [apply H1; reflexivity|]. split.
  - apply H4; [discriminate | discriminate | reflexivity].
  - assert (J : joinable (or_ (field_or clause_with_docs "applies_to" (VList []))
                            (VList [])) = true) by (vm_compute; reflexivity).
    rewrite J in H5. apply H5; discriminate.
Defined.

(** When and how the text of a supporting document raises:
    [AttributeError] for an item that is not a dictionary (the label of
    the expander calls [doc.get] first); [KeyError] with the first missing
    key among title, summary and url, asked for in this order.  In every
    other case it returns a text, whatever the other six fields hold. *)
Theorem doc_block_outcome (repr : value -> Py.str) (doc : value) :
  (is_dict doc = false -> doc_block repr doc = Raise AttributeError)
  /\ (is_dict doc = true ->
      field doc "support_title" = None ->
      doc_block repr doc = Raise (KeyError (Py.utf8 "support_title")))
  /\ (field doc "support_title" <> None ->
      field doc "support_summary" = None ->
      doc_block repr doc = Raise (KeyError (Py.utf8 "support_summary")))
  /\ (field doc "support_title" <> None ->
      field doc "support_summary" <> None ->
      field doc "support_url" = None ->
      doc_block repr doc = Raise (KeyError (Py.utf8 "support_url")))
  /\ (field doc "support_title" <> None ->
      field doc "support_summary" <> None ->
      field doc "support_url" <> None ->
      exists text, doc_block repr doc = Ok text).
Proof.
  split; [|split; [|split; [|split]]].
  - destruct doc; try discriminate; reflexivity.
  - destruct doc as [| | | | |items]; try discriminate.
    intros _ H. unfold doc_block. rewrite !get_field_or. cbn [bind].
    rewrite (subscript_absent _ _ H). reflexivity.
  - intros H1 H2.
    destruct doc as [| | | | |items]; try (exfalso; apply H1; reflexivity).
    unfold doc_block. rewrite !get_field_or. cbn [bind].
    destruct (field (VDict items) "support_title") as [x|] eqn:E1;
      [|congruence].
    rewrite (subscript_field _ _ _ E1), (subscript_absent _ _ H2).
    reflexivity.
  - intros H1 H2 H3.
    destruct doc as [| | | | |items]; try (exfalso; apply H1; reflexivity).
    unfold doc_block. rewrite !get_field_or. cbn [bind].
    destruct (field (VDict items) "support_title") as [x|] eqn:E1;
      [|congruence].
    destruct (field (VDict items) "support_summary") as [y|] eqn:E2;
      [|congruence].
    rewrite (subscript_field _ _ _ E1), (subscript_field _ _ _ E2).
    cbn [bind]. rewrite (subscript_absent _ _ H3). reflexivity.
  - intros H1 H2 H3.
    destruct doc as [| | | | |items]; try (exfalso; apply H1; reflexivity).
    destruct (field (VDict items) "support_title") as [x|] eqn:E1;
      [|congruence].
    destruct (field (VDict items) "support_summary") as [y|] eqn:E2;
      [|congruence].
    destruct (field (VDict items) "support_url") as [z|] eqn:E3;
      [|congruence].
    rewrite (doc_block_present repr items x y z E1 E2 E3).
    eexists. reflexivity.
Qed.

Lemma doc_block_outcome_witness :
  doc_block repr_unused (VStr (Py.utf8 "LOI 20021115")) = Raise AttributeError
  /\ doc_block repr_unused
       (VDict [(Py.utf8 "support_title", lit "LOI 20021115");
               (Py.utf8 "support_url", lit "https://www.osha.gov")])
     = Raise (KeyError (Py.utf8 "support_summary"))
  /\ exists text, doc_block repr_unused doc_minimal = Ok text.
Proof.
  destruct (doc_block_outcome repr_unused (VStr (Py.utf8 "LOI 20021115")))
    as [H1 _].
  destruct (doc_block_outcome repr_unused
              (VDict [(Py.utf8 "support_title", lit "LOI 20021115");
                      (Py.utf8 "support_url", lit "https://www.osha.gov")]))
    as [_ [_ [H3 _]]].
  destruct (doc_block_outcome repr_unused doc_minimal) as [_ [_ [_ [_ H5]]]].
  split; [apply H1; reflexivity|]. split.
  - apply H3; [discriminate | reflexivity].
  - apply H5; discriminate.
Defined.

Lemma rstrip_app_nonspace (s t : Py.str) (c : N) :
  Py.isspace c = false -> Py.rstrip (s ++ c :: t) = s ++ c :: Py.rstrip t.
Proof.
  intros Hc. induction s as [|a s IH].
  - simpl. destruct (Py.rstrip t); [rewrite Hc|]; reflexivity.
  - simpl. rewrite IH. destruct s; reflexivity.
Qed.

(** [strip] of a text whose first non-space character is [a] and in which
    [c] is not a space: everything up to [c] is kept as it is. *)
Lemma strip_between (ws ws2 s t : Py.str) (a c : N) :
  Py.spaces ws -> Py.spaces ws2 ->
  Py.isspace a = false -> Py.isspace c = false ->
  Py.strip (ws ++ (a :: s) ++ (c :: t) ++ ws2) = (a :: s) ++ c :: Py.rstrip t.
Proof.
  intros W W2 Ha Hc. unfold Py.strip.
  rewrite (lstrip_spaces _ _ W).
  assert (E : (a :: s) ++ (c :: t) ++ ws2 = a :: (s ++ c :: (t ++ ws2)))
    by reflexivity.
  rewrite E, (lstrip_fix _ _ Ha).
  assert (E' : a :: (s ++ c :: (t ++ ws2)) = (a :: s) ++ c :: (t ++ ws2))
    by reflexivity.
  rewrite E', (rstrip_app_nonspace _ _ _ Hc), (rstrip_spaces _ _ W2).
  reflexivity.
Qed.

Lemma strip_clause_text (a b c d e f g : Py.str) :
  Py.strip (Py.utf8 "
🔹 " ++ a ++ Py.utf8 ": " ++ b ++ Py.utf8 "
Summary: " ++ c ++ Py.utf8 "
Violations (FY2024): " ++ d ++ Py.utf8 "
Hazard Type: " ++ e ++ Py.utf8 "
Applies To: " ++ f ++ Py.utf8 "
Protective Equipment: " ++ g ++ Py.utf8 "
")
  = Py.utf8 "🔹 " ++ a ++ Py.utf8 ": " ++ b ++ Py.utf8 "
Summary: " ++ c ++ Py.utf8 "
Violations (FY2024): " ++ d ++ Py.utf8 "
Hazard Type: " ++ e ++ Py.utf8 "
Applies To: " ++ f ++ Py.utf8 "
Protective Equipment:" ++ Py.rstrip (32 :: g).
Proof.
  transitivity
    (Py.strip ([10] ++ (128313 :: ([32] ++ a ++ Py.utf8 ": " ++ b ++ Py.utf8 "
Summary: " ++ c ++ Py.utf8 "
Violations (FY2024): " ++ d ++ Py.utf8 "
Hazard Type: " ++ e ++ Py.utf8 "
Applies To: " ++ f ++ Py.utf8 "
Protective Equipment")) ++ (58 :: 32 :: g) ++ [10])).
  - f_equal. same_text.
  - rewrite strip_between by reflexivity. same_text.
Qed.

(** The block of a clause, whenever there is one: the marker, and the
    seven fields on six lines, each value inserted as [str] gives it and
    left as it is.  Only the text after the last label is touched: the
    blank after [Protective Equipment:] and the value are stripped on the
    right, so that a value of whitespace only (or an empty one) leaves the
    label alone.  The block never starts or ends with whitespace. *)
Theorem clause_block_shape (repr : value -> Py.str) (clause : value)
    (block : Py.str) :
  clause_block repr clause = Ok block ->
  exists section_id title summary applies,
    field clause "clause_section_id" = Some section_id
    /\ field clause "clause_title" = Some title
    /\ field clause "clause_summary" = Some summary
    /\ join_value ", " (or_ (field_or clause "applies_to" (VList [])) (VList []))
       = Ok applies
    /\ block
       = Py.utf8 "🔹 " ++ py_str repr section_id ++ Py.utf8 ": "
         ++ py_str repr title ++ Py.utf8 "
Summary: " ++ py_str repr summary ++ Py.utf8 "
Violations (FY2024): "
         ++ py_str repr (field_or clause "violations_fy2024" (lit "N/A"))
         ++ Py.utf8 "
Hazard Type: " ++ py_str repr (field_or clause "hazard_type" (lit "N/A"))
         ++ Py.utf8 "
Applies To: " ++ applies ++ Py.utf8 "
Protective Equipment:"
         ++ Py.rstrip
              (32 :: py_str repr
                       (field_or clause "protective_equipment" (lit "N/A")))
    /\ ~ padded block.
Proof.
  intros H.
  destruct clause as [| | | | |items]; try discriminate.
  destruct (field (VDict items) "clause_section_id") as [x|] eqn:E1.
  2:{ unfold clause_block in H. rewrite (subscript_absent _ _ E1) in H.
      discriminate. }
  destruct (field (VDict items) "clause_title") as [y|] eqn:E2.
  2:{ unfold clause_block in H.
      rewrite (subscript_field _ _ _ E1), (subscript_absent _ _ E2) in H.
      discriminate. }
  destruct (field (VDict items) "clause_summary") as [z|] eqn:E3.
  2:{ unfold clause_block in H.
      rewrite (subscript_field _ _ _ E1), (subscript_field _ _ _ E2),
        (subscript_absent _ _ E3) in H.
      discriminate. }
  rewrite (clause_block_present repr items x y z E1 E2 E3) in H.
  destruct (join_value ", "
              (or_ (field_or (VDict items) "applies_to" (VList [])) (VList [])))
    as [applies|e] eqn:J; [|discriminate].
  cbn [bind] in H. injection H as H.
  exists x, y, z, applies.
  split; [reflexivity|]. split; [reflexivity|]. split; [reflexivity|].
  split; [reflexivity|]. split.
  - rewrite <- H. apply strip_clause_text.
  - rewrite <- H. apply strip_not_padded.
Qed.

Lemma clause_block_shape_witness :
  exists block,
    clause_block repr_unused clause_with_docs = Ok block
    /\ ~ padded block.
Proof.
  destruct (clause_block repr_unused clause_with_docs) as [block|e] eqn:E;
    [|vm_compute in E; discriminate].
  exists block. split; [reflexivity|].
  destruct (clause_block_shape repr_unused clause_with_docs block E)
    as [x [y [z [a [_ [_ [_ [_ [_ H]]]]]]]]].
  exact H.
Defined.

Lemma strip_doc_text (a b c d e f g h : Py.str) :
  Py.strip (Py.utf8 "
            ✅ Support Doc: " ++ a ++ Py.utf8 "
            - Summary: " ++ b ++ Py.utf8 "
            - Guidance: " ++ c ++ Py.utf8 "
            - Notes: " ++ d ++ Py.utf8 "
            - URL: " ++ e ++ Py.utf8 "
            - Related Sections: " ++ f ++ Py.utf8 "
            - Type: " ++ g ++ Py.utf8 "
            - Published: " ++ h ++ Py.utf8 "
            ")
  = Py.utf8 "✅ Support Doc: " ++ a ++ Py.utf8 "
            - Summary: " ++ b ++ Py.utf8 "
            - Guidance: " ++ c ++ Py.utf8 "
            - Notes: " ++ d ++ Py.utf8 "
            - URL: " ++ e ++ Py.utf8 "
            - Related Sections: " ++ f ++ Py.utf8 "
            - Type: " ++ g ++ Py.utf8 "
            - Published:" ++ Py.rstrip (32 :: h).
Proof.
  transitivity
    (Py.strip (Py.utf8 "
            " ++ (9989 :: (Py.utf8 " Support Doc: " ++ a ++ Py.utf8 "
            - Summary: " ++ b ++ Py.utf8 "
            - Guidance: " ++ c ++ Py.utf8 "
            - Notes: " ++ d ++ Py.utf8 "
            - URL: " ++ e ++ Py.utf8 "
            - Related Sections: " ++ f ++ Py.utf8 "
            - Type: " ++ g ++ Py.utf8 "
            - Published")) ++ (58 :: 32 :: h) ++ Py.utf8 "
            ")).
  - f_equal. same_text.
  - rewrite strip_between by reflexivity. same_text.
Qed.

(** The text of a supporting document, whenever there is one: the marker
    and the eight fields on eight lines, each value inserted as [str]
    gives it.  The lines after the first keep the twelve blanks of the
    source's indentation.  Only the text after the last label is touched:
    the blank after [- Published:] and the date are stripped on the right.
    The text never starts or ends with whitespace. *)
Theorem doc_block_shape (repr : value -> Py.str) (doc : value)
    (text : Py.str) :
  doc_block repr doc = Ok text ->
  exists title summary url,
    field doc "support_title" = Some title
    /\ field doc "support_summary" = Some summary
    /\ field doc "support_url" = Some url
    /\ text
       = Py.utf8 "✅ Support Doc: " ++ py_str repr title ++ Py.utf8 "
            - Summary: " ++ py_str repr summary ++ Py.utf8 "
            - Guidance: "
         ++ py_str repr (field_or doc "support_compliance_guidance" (lit ""))
         ++ Py.utf8 "
            - Notes: "
         ++ py_str repr (field_or doc "support_enforcement_notes" (lit ""))
         ++ Py.utf8 "
            - URL: " ++ py_str repr url ++ Py.utf8 "
            - Related Sections: "
         ++ py_str repr (field_or doc "support_related_sections" (lit "N/A"))
         ++ Py.utf8 "
            - Type: "
         ++ py_str repr (field_or doc "support_publication_type" (lit "N/A"))
         ++ Py.utf8 "
            - Published:"
         ++ Py.rstrip
              (32 :: py_str repr
                       (field_or doc "support_publication_date" (lit "N/A")))
    /\ ~ padded text.
Proof.
  intros H.
  destruct doc as [| | | | |items]; try discriminate.
  destruct (field (VDict items) "support_title") as [x|] eqn:E1.
  2:{ unfold doc_block in H. rewrite !get_field_or in H. cbn [bind] in H.
      rewrite (subscript_absent _ _ E1) in H. discriminate. }
  destruct (field (VDict items) "support_summary") as [y|] eqn:E2.
  2:{ unfold doc_block in H. rewrite !get_field_or in H. cbn [bind] in H.
      rewrite (subscript_field _ _ _ E1), (subscript_absent _ _ E2) in H.
      discriminate. }
  destruct (field (VDict items) "support_url") as [z|] eqn:E3.
  2:{ unfold doc_block in H. rewrite !get_field_or in H. cbn [bind] in H.
      rewrite (subscript_field _ _ _ E1), (subscript_field _ _ _ E2) in H.
      cbn [bind] in H. rewrite (subscript_absent _ _ E3) in H.
      discriminate. }
  rewrite (doc_block_present repr items x y z E1 E2 E3) in H.
  injection H as H. exists x, y, z.
  split; [reflexivity|]. split; [reflexivity|]. split; [reflexivity|]. split.
  - rewrite <- H. apply strip_doc_text.
  - rewrite <- H. apply strip_not_padded.
Qed.

Lemma doc_block_shape_witness :
  exists text,
    doc_block repr_unused doc_minimal = Ok text
    /\ ~ padded text.
Proof.
  destruct (doc_block repr_unused doc_minimal) as [text|e] eqn:E;
    [|vm_compute in E; discriminate].
  exists text. split; [reflexivity|].
  destruct (doc_block_shape repr_unused doc_minimal text E)
    as [x [y [z [_ [_ [_ [_ H]]]]]]].
  exact H.
Defined.

(** A clause without supporting documents ([support_docs] missing, or an
    empty list, string or dictionary) gets no placeholder document: its
    block is the clause's own lines followed by the two line feeds that
    would separate them from the documents, so that the block ends in a
    blank line. *)
Theorem full_block_without_docs (repr : value -> Py.str) (clause : value)
    (head : Py.str) :
  clause_block repr clause = Ok head ->
  iter (field_or clause "support_docs" (VList [])) = Ok [] ->
  full_block repr clause = Ok (head ++ Py.nl ++ Py.nl)
  /\ doc_blocks repr clause = Ok [].
Proof.
  intros Hb Hd.
  assert (D : doc_blocks repr clause = Ok []).
  { unfold doc_blocks. destruct clause as [| | | | |items]; try discriminate.
    rewrite get_field_or. cbn [bind]. rewrite Hd. reflexivity. }
  split; [|exact D].
  unfold full_block. rewrite Hb, D. cbn [bind Py.join].
  rewrite app_nil_r. reflexivity.
Qed.

Lemma full_block_without_docs_witness :
  full_block repr_unused clause_minimal
  = Ok (clause_block_defaults (Py.utf8 "1926.501(b)(10)")
          (Py.utf8 "Roofing work on low-slope roofs")
          (Py.utf8 "Warning lines are for roofers only.")
        ++ Py.nl ++ Py.nl).
Proof.
  apply (full_block_without_docs repr_unused clause_minimal); vm_compute;
    reflexivity.
Defined.

(** [support_docs] has no [or []] as [applies_to] has: when the key is
    present and holds a value a loop cannot run over ([None], a number, a
    boolean), the clause's own lines render and the loop over the
    documents then raises [TypeError], so that the clause gets no block
    and the assembly of the reply raises. *)
Theorem null_support_docs_raises (repr : value -> Py.str) (clause : value)
    (head : Py.str) (docs : value) :
  clause_block repr clause = Ok head ->
  field clause "support_docs" = Some docs ->
  iter docs = Raise TypeError ->
  full_block repr clause = Raise TypeError
  /\ context_blocks repr (VList [clause]) = Raise TypeError.
Proof.
  intros Hb Hf Hi.
  assert (F : full_block repr clause = Raise TypeError).
  { unfold full_block, doc_blocks. rewrite Hb. cbn [bind].
    rewrite (get_field _ _ _ _ Hf). cbn [bind].
    rewrite Hi. reflexivity. }
  split; [exact F|].
  unfold context_blocks. cbn [iter bind for_append]. rewrite F. reflexivity.
Qed.

Lemma null_support_docs_raises_witness :
  full_block repr_unused
    (VDict [(Py.utf8 "clause_section_id", lit "1926.501(b)(10)");
            (Py.utf8 "clause_title", lit "Roofing work on low-slope roofs");
            (Py.utf8 "clause_summary", lit "Warning lines are for roofers only.");
            (Py.utf8 "applies_to", VNone);
            (Py.utf8 "support_docs", VNone)])
  = Raise TypeError.
Proof.
  apply (null_support_docs_raises repr_unused _
           (clause_block_defaults (Py.utf8 "1926.501(b)(10)")
              (Py.utf8 "Roofing work on low-slope roofs")
              (Py.utf8 "Warning lines are for roofers only."))
           VNone).
  - vm_compute. reflexivity.
  - vm_compute. reflexivity.
  - reflexivity.
Defined.

Lemma strip_nil_iff (s : Py.str) : Py.strip s = [] <-> Py.spaces s.
Proof.
  split.
  - intros E. destruct (strip_decomp s) as [ws1 [ws2 [Es [W1 W2]]]].
    rewrite E in Es. simpl in Es. rewrite Es. unfold Py.spaces in *.
    rewrite forallb_app, W1, W2. reflexivity.
  - intros W. unfold Py.strip.
    rewrite <- (app_nil_r s), (lstrip_spaces _ _ W). reflexivity.
Qed.

(** A reply of the generator is shown as the answer whatever it holds:
    when the text is empty or of whitespace only, and only then, the run
    shows the empty string under the answer heading and offers it for
    download; no failure notice is shown for it. *)
Theorem blank_reply_shows_empty_answer (vector : Type)
    (svc : services vector) (m : mode) (prompt text : Py.str) :
  generate_content svc m prompt = Returned text ->
  ~ In (StError failure_notice) (generate svc m prompt)
  /\ (Py.spaces text <->
      generate svc m prompt
      = [CallGenerate m prompt; StSubheader answer_heading;
         StMarkdown []; StDownloadButton []]).
Proof.
  intros H. unfold generate. rewrite H. cbn zeta. split.
  - intros Hin. cbn in Hin.
    repeat (destruct Hin as [Hin|Hin]; try discriminate). contradiction.
  - split.
    + intros W. apply strip_nil_iff in W. rewrite W. reflexivity.
    + intros E. apply strip_nil_iff. congruence.
Qed.

Lemma blank_reply_shows_empty_answer_witness :
  generate
    {| encode := fun _ => Returned tt;
       rpc_execute := fun _ _ => Returned (VList []);
       generate_content := fun _ _ => Returned question_blank |}
    RawGemini (raw_prompt question)
  = [CallGenerate RawGemini (raw_prompt question); StSubheader answer_heading;
     StMarkdown []; StDownloadButton []].
Proof.
  apply (blank_reply_shows_empty_answer unit
           {| encode := fun _ => Returned tt;
              rpc_execute := fun _ _ => Returned (VList []);
              generate_content := fun _ _ => Returned question_blank |}
           RawGemini (raw_prompt question) question_blank eq_refl).
  vm_compute. reflexivity.
Defined.

Lemma Ok_inj {A : Type} (a b : A) : Ok a = Ok b -> a = b.
Proof. intros H. injection H as H. exact H. Qed.

Lemma doc_block_nonempty_unpadded (repr : value -> Py.str) (doc : value)
    (text : Py.str) :
  doc_block repr doc = Ok text -> text <> [] /\ ~ padded text.
Proof.
  intros H.
  destruct doc as [| | | | |items]; try discriminate.
  destruct (field (VDict items) "support_title") as [x|] eqn:E1.
  2:{ unfold doc_block in H. rewrite !get_field_or in H. cbn [bind] in H.
      rewrite (subscript_absent _ _ E1) in H. discriminate. }
  destruct (field (VDict items) "support_summary") as [y|] eqn:E2.
  2:{ unfold doc_block in H. rewrite !get_field_or in H. cbn [bind] in H.
      rewrite (subscript_field _ _ _ E1), (subscript_absent _ _ E2) in H.
      discriminate. }
  destruct (field (VDict items) "support_url") as [z|] eqn:E3.
  2:{ unfold doc_block in H. rewrite !get_field_or in H. cbn [bind] in H.
      rewrite (subscript_field _ _ _ E1), (subscript_field _ _ _ E2) in H.
      cbn [bind] in H. rewrite (subscript_absent _ _ E3) in H.
      discriminate. }
  rewrite (doc_block_present repr items x y z E1 E2 E3) in H.
  apply Ok_inj in H. split.
  - rewrite <- H, strip_doc_text. discriminate.
  - rewrite <- H. apply strip_not_padded.
Qed.

Lemma unpadded_last (t : Py.str) :
  t <> [] -> ~ padded t -> exists r c, t = r ++ [c] /\ Py.isspace c = false.
Proof.
  intros Hn Hp. destruct (@exists_last _ t Hn) as [r [c E]].
  exists r, c. split; [exact E|].
  destruct (Py.isspace c) eqn:Hc; [|reflexivity].
  exfalso. apply Hp. right. exists r, c. split; assumption.
Qed.

Lemma Forall2_single {A B : Type} (P : A -> B -> Prop) (l : list A) (b : B) :
  Forall2 P l [b] -> exists a, P a b.
Proof.
  intros F. inversion F as [|a b' l' bs H F']. exists a. exact H.
Qed.

Lemma join_snoc (sep t : Py.str) (l : list Py.str) :
  exists pre, Py.join sep (l ++ [t]) = pre ++ t.
Proof.
  destruct l as [|y l].
  - exists []. reflexivity.
  - exists (Py.join sep (y :: l) ++ sep).
    rewrite join_app by discriminate. simpl Py.join at 2.
    rewrite <- app_assoc. reflexivity.
Qed.

(** How the block of a clause ends.  With at least one supporting document
    it ends with the last character of the last document's text, which is
    not whitespace; with none it ends with the two line feeds that follow
    the clause's own lines.  In the assembled context, where blocks are one
    line feed apart, a clause with documents is thus followed by the next
    clause on the very next line and a clause without documents by two
    blank lines. *)
Theorem full_block_ending (repr : value -> Py.str) (clause : value)
    (block : Py.str) (texts : list Py.str) :
  full_block repr clause = Ok block ->
  doc_blocks repr clause = Ok texts ->
  (texts = [] ->
   exists head,
     clause_block repr clause = Ok head
     /\ block = head ++ Py.nl ++ Py.nl
     /\ forall next rest,
          assembled_context (block :: next :: rest)
          = head ++ (Py.nl ++ Py.nl ++ Py.nl)
              ++ assembled_context (next :: rest))
  /\ (texts <> [] ->
      exists r c,
        block = r ++ [c] /\ Py.isspace c = false
        /\ forall next rest,
             assembled_context (block :: next :: rest)
             = r ++ [c] ++ Py.nl ++ assembled_context (next :: rest)).
Proof.
  intros Hf Hd. unfold full_block in Hf.
  destruct (clause_block repr clause) as [head|e]; [|discriminate].
  rewrite Hd in Hf. cbn [bind] in Hf. apply Ok_inj in Hf.
  split.
  - intros ->. exists head. split; [reflexivity|].
    cbn [Py.join] in Hf. rewrite app_nil_r in Hf.
    assert (Hb : block = head ++ Py.nl ++ Py.nl) by (rewrite <- Hf; reflexivity).
    split; [exact Hb|].
    intros next rest. unfold assembled_context. rewrite join_cons, Hb.
    rewrite <- !app_assoc. reflexivity.
  - intros Hn.
    destruct (@exists_last _ texts Hn) as [l [t El]].
    apply doc_blocks_spec in Hd as [sd [ds [_ [_ F]]]].
    rewrite El in F. apply Forall2_app_inv_r in F as [d1 [d2 [_ [F2 _]]]].
    apply Forall2_single in F2 as [d Hdoc].
    destruct (doc_block_nonempty_unpadded repr d t Hdoc) as [Hne Hpad].
    destruct (unpadded_last t Hne Hpad) as [r [c [Et Hc]]].
    destruct (join_snoc (Py.utf8 "

") t l) as [pre Ep].
    exists (head ++ Py.utf8 "

" ++ pre ++ r), c.
    assert (Hb : block = (head ++ Py.utf8 "

" ++ pre ++ r) ++ [c]).
    { rewrite <- Hf, El, Ep, Et. rewrite <- !app_assoc. reflexivity. }
    split; [exact Hb|]. split; [exact Hc|].
    intros next rest. unfold assembled_context. rewrite join_cons, Hb.
    rewrite <- !app_assoc. reflexivity.
Qed.

Lemma full_block_ending_witness :
  exists r c,
    match full_block repr_unused clause_with_docs with
    | Ok block => block
    | Raise _ => []
    end = r ++ [c]
    /\ Py.isspace c = false.
Proof.
  destruct (full_block repr_unused clause_with_docs) as [block|e] eqn:Ef;
    [|vm_compute in Ef; discriminate].
  destruct (doc_blocks repr_unused clause_with_docs) as [texts|e] eqn:Ed;
    [|vm_compute in Ed; discriminate].
  destruct (full_block_ending repr_unused clause_with_docs block texts Ef Ed)
    as [_ H].
  destruct H as [r [c [Hb [Hc _]]]].
  - intros ->. vm_compute in Ed. discriminate.
  - exists r, c. split; assumption.
Defined.

(* ===================================================================== *)
(** ** What the page displays                                             *)
(* ===================================================================== *)

Example display_of_minimal_clause :
  show_full repr_unused clause_minimal
  = ([Expander (Py.utf8 "🔹 1926.501(b)(10): Roofing work on low-slope roofs");
      Markdown (Py.utf8 "**Summary:** Warning lines are for roofers only.");
      Markdown (Py.utf8 "**Violations (FY2024):** N/A");
      Markdown (Py.utf8 "**Hazard Type:** N/A");
      Markdown (Py.utf8 "**Applies To:** ");
      Markdown (Py.utf8 "**Protective Equipment:** N/A")],
     full_block repr_unused clause_minimal).
Proof. vm_compute. reflexivity. Qed.

Example display_of_minimal_doc :
  fst (show_doc repr_unused doc_minimal)
  = [Expander (Py.utf8 "📄 LOI 20021115 | N/A");
     Markdown (Py.utf8 "---");
     Markdown (Py.utf8 "✅ **Supporting Document: LOI 20021115**");
     Markdown (Py.utf8 "• **Summary:** HVAC work is not roofing work.");
     Markdown (Py.utf8 "• **Compliance Guidance:** ");
     Markdown (Py.utf8 "• **Enforcement Notes:** ");
     Markdown (Py.utf8 "• **Revised Date:** N/A");
     Markdown (Py.utf8 "• **Publication Type:** N/A");
     Markdown (Py.utf8 "• **URL:** https://www.osha.gov/loi/20021115")].
Proof. vm_compute. reflexivity. Qed.

Example demo_panel_of_the_page :
  snd (demo_panel repr_unused demo_questions) = Ok tt
  /\ List.length (fst (demo_panel repr_unused demo_questions)) = 21%nat
  /\ nth_error (fst (demo_panel repr_unused demo_questions)) 17
     = Some (Markdown (Py.utf8 "### ❓ Q5: During leading edge work, there’s no wall to tie off a control line near the edge. Can a controlled access zone still be used?")).
Proof.
  split; [|split]; vm_compute; reflexivity.
Qed.

Lemma snd_show_bind {A B : Type} (m : shows A) (f : A -> shows B) :
  snd (show_bind m f)
  = match snd m with
    | Ok a => snd (f a)
    | Raise e => Raise e
    end.
Proof.
  destruct m as [shown [a|e]]; simpl; [|reflexivity].
  destruct (f a). reflexivity.
Qed.

Lemma fst_show_bind {A B : Type} (m : shows A) (f : A -> shows B) :
  fst (show_bind m f)
  = match snd m with
    | Ok a => fst m ++ fst (f a)
    | Raise e => fst m
    end.
Proof.
  destruct m as [shown [a|e]]; simpl; [|reflexivity].
  destruct (f a). reflexivity.
Qed.

Lemma doc_block_lines (repr : value -> Py.str) (doc : value) :
  is_dict doc = true -> doc_block repr doc = doc_lines repr doc.
Proof.
  destruct doc as [| | | | |items]; try discriminate. intros _.
  unfold doc_block, doc_lines. rewrite !get_field_or. reflexivity.
Qed.

(** The displaying code of a clause ends as [clause_block] does. *)
Lemma snd_show_clause (repr : value -> Py.str) (clause : value) :
  snd (show_clause repr clause) = clause_block repr clause.
Proof.
  destruct clause as [| | | | |items]; try reflexivity.
  unfold show_clause, clause_block.
  rewrite !get_field_or.
  destruct (subscript (VDict items) "clause_section_id") as [x|e];
    [|reflexivity].
  destruct (subscript (VDict items) "clause_title") as [y|e];
    [|reflexivity].
  destruct (subscript (VDict items) "clause_summary") as [z|e];
    [|reflexivity].
  cbv [show_bind eval emit snd bind].
  destruct (join_value ", "
              (or_ (field_or (VDict items) "applies_to" (VList []))
                 (VList []))) as [s|e]; reflexivity.
Qed.

(** The displaying code of a document ends as [doc_block] does. *)
Lemma snd_show_doc (repr : value -> Py.str) (doc : value) :
  snd (show_doc repr doc) = doc_block repr doc.
Proof.
  destruct doc as [| | | | |items]; try reflexivity.
  rewrite (doc_block_lines repr (VDict items) eq_refl).
  unfold show_doc, doc_lines.
  rewrite !get_field_or.
  destruct (subscript (VDict items) "support_title") as [x|e];
    [|reflexivity].
  destruct (subscript (VDict items) "support_summary") as [y|e];
    [|reflexivity].
  destruct (subscript (VDict items) "support_url") as [z|e];
    cbv [show_bind eval emit snd bind]; reflexivity.
Qed.

Lemma for_append_ext (f g : value -> result Py.str) (items : list value)
    (acc : list Py.str) :
  (forall x, f x = g x) -> for_append f items acc = for_append g items acc.
Proof.
  intros H. revert acc. induction items as [|x rest IH]; intros acc; simpl.
  - reflexivity.
  - rewrite H. destruct (g x); simpl; [apply IH | reflexivity].
Qed.

Lemma snd_for_show (body : value -> shows Py.str) (items : list value)
    (acc : list Py.str) :
  snd (for_show body items acc)
  = for_append (fun x => snd (body x)) items acc.
Proof.
  revert acc. induction items as [|x rest IH]; intros acc; simpl.
  - reflexivity.
  - rewrite snd_show_bind. destruct (snd (body x)); simpl;
      [apply IH | reflexivity].
Qed.

Lemma snd_show_docs (repr : value -> Py.str) (clause : value) :
  snd (show_docs repr clause) = doc_blocks repr clause.
Proof.
  unfold show_docs, doc_blocks. rewrite snd_show_bind. cbn [eval snd].
  destruct (get clause "support_docs" (VList [])) as [sd|e]; [|reflexivity].
  cbn [bind]. rewrite snd_show_bind. cbn [eval snd].
  destruct (iter sd) as [docs|e]; [|reflexivity].
  cbn [bind]. rewrite snd_for_show.
  apply for_append_ext. intros x. apply snd_show_doc.
Qed.

Lemma snd_show_full (repr : value -> Py.str) (clause : value) :
  snd (show_full repr clause) = full_block repr clause.
Proof.
  unfold show_full, full_block. rewrite snd_show_bind, snd_show_clause.
  destruct (clause_block repr clause) as [block|e]; [|reflexivity].
  cbn [bind]. rewrite snd_show_bind, snd_show_docs.
  destruct (doc_blocks repr clause); reflexivity.
Qed.

(** The loops that display compute the context blocks of the loops that do
    not: whatever the reply holds, the code of lines 136-176 with its
    Streamlit calls ends with the same list of blocks, or with the same
    exception, as [context_blocks]. *)
Theorem display_computes_context_blocks (repr : value -> Py.str)
    (clauses : value) :
  snd (show_context repr clauses) = context_blocks repr clauses
  /\ (forall clause,
        snd (show_full repr clause) = full_block repr clause
        /\ snd (show_clause repr clause) = clause_block repr clause)
  /\ (forall doc, snd (show_doc repr doc) = doc_block repr doc).
Proof.
  split; [|split].
  - unfold show_context, context_blocks. rewrite snd_show_bind.
    cbn [eval snd].
    destruct (iter clauses) as [items|e]; [|reflexivity].
    cbn [bind]. rewrite snd_for_show.
    apply for_append_ext. intros x. apply snd_show_full.
  - intros clause. split; [apply snd_show_full | apply snd_show_clause].
  - intros doc. apply snd_show_doc.
Qed.

Lemma display_computes_context_blocks_witness :
  snd (show_context repr_unused (VList sample_clauses)) = Ok sample_blocks.
Proof.
  destruct (display_computes_context_blocks repr_unused (VList sample_clauses))
    as [H _].
  rewrite H. vm_compute. reflexivity.
Defined.

Lemma list_sum_cons (a : nat) (l : list nat) :
  list_sum (a :: l) = (a + list_sum l)%nat.
Proof. reflexivity. Qed.

Lemma count_concat {A : Type} (f : A -> bool) (ls : list (list A)) :
  count f (List.concat ls) = list_sum (map (count f) ls).
Proof.
  induction ls as [|l ls IH]; simpl; [reflexivity|].
  rewrite count_app, IH. reflexivity.
Qed.

(** A displaying loop that ends normally has displayed every item, in the
    order of the items. *)
Lemma for_show_ok (body : value -> shows Py.str) (items : list value)
    (acc out : list Py.str) :
  snd (for_show body items acc) = Ok out ->
  fst (for_show body items acc) = List.concat (map (fun x => fst (body x)) items).
Proof.
  revert acc. induction items as [|x rest IH]; intros acc; simpl.
  - reflexivity.
  - rewrite snd_show_bind, fst_show_bind.
    destruct (snd (body x)) as [b|e]; [|discriminate].
    intros H. rewrite (IH _ H). reflexivity.
Qed.

(** A displaying loop that raises has displayed the items before the one
    that raised, and of that one what came before the exception; the
    items after it are not looked at. *)
Lemma for_show_raise (body : value -> shows Py.str)
    (done rest : list value) (bad : value) (acc : list Py.str) (e : exn) :
  Forall (fun x => exists b, snd (body x) = Ok b) done ->
  snd (body bad) = Raise e ->
  for_show body (done ++ bad :: rest) acc
  = (List.concat (map (fun x => fst (body x)) done) ++ fst (body bad), Raise e).
Proof.
  intros F Hb. revert acc. induction F as [|x done [b Hx] F IH]; intros acc.
  - simpl. destruct (body bad) as [shown r]. simpl in Hb. subst r.
    reflexivity.
  - simpl. destruct (body x) as [shown r] eqn:Ex. simpl in Hx. subst r.
    simpl. rewrite (IH (acc ++ [b])). rewrite <- app_assoc. reflexivity.
Qed.

Lemma show_clause_counts (repr : value -> Py.str) (clause : value)
    (block : Py.str) :
  snd (show_clause repr clause) = Ok block ->
  count is_expander (fst (show_clause repr clause)) = 1%nat
  /\ count is_markdown (fst (show_clause repr clause)) = 5%nat.
Proof.
  destruct clause as [| | | | |items]; try discriminate.
  unfold show_clause, clause_block.
  rewrite !get_field_or.
  destruct (subscript (VDict items) "clause_section_id") as [x|e];
    [|discriminate].
  destruct (subscript (VDict items) "clause_title") as [y|e];
    [|discriminate].
  destruct (subscript (VDict items) "clause_summary") as [z|e];
    [|discriminate].
  cbv [show_bind eval emit snd fst bind].
  destruct (join_value ", "
              (or_ (field_or (VDict items) "applies_to" (VList []))
                 (VList []))) as [s|e]; [|discriminate].
  intros _. split; reflexivity.
Qed.

Lemma show_doc_counts (repr : value -> Py.str) (doc : value) (text : Py.str) :
  snd (show_doc repr doc) = Ok text ->
  count is_expander (fst (show_doc repr doc)) = 1%nat
  /\ count is_markdown (fst (show_doc repr doc)) = 8%nat.
Proof.
  destruct doc as [| | | | |items]; try discriminate.
  unfold show_doc, doc_lines.
  rewrite !get_field_or.
  destruct (subscript (VDict items) "support_title") as [x|e];
    [|discriminate].
  destruct (subscript (VDict items) "support_summary") as [y|e];
    [|discriminate].
  destruct (subscript (VDict items) "support_url") as [z|e];
    [|discriminate].
  cbv [show_bind eval emit snd fst bind].
  intros _. split; reflexivity.
Qed.

Lemma show_docs_counts (repr : value -> Py.str) (clause : value)
    (texts : list Py.str) :
  is_dict clause = true ->
  snd (show_docs repr clause) = Ok texts ->
  count is_expander (fst (show_docs repr clause)) = n_docs clause
  /\ count is_markdown (fst (show_docs repr clause)) = (8 * n_docs clause)%nat.
Proof.
  destruct clause as [| | | | |items]; try discriminate. intros _.
  unfold show_docs, n_docs. rewrite get_field_or.
  cbv [show_bind eval].
  destruct (iter (field_or (VDict items) "support_docs" (VList [])))
    as [docs|e]; [|discriminate].
  destruct (for_show (show_doc repr) docs []) as [shown r] eqn:E.
  cbn [fst snd app]. intros Hr. subst r.
  assert (Hs : snd (for_show (show_doc repr) docs []) = Ok texts)
    by (rewrite E; reflexivity).
  assert (Hf : shown = List.concat (map (fun x => fst (show_doc repr x)) docs)).
  { rewrite <- (for_show_ok _ _ _ _ Hs), E. reflexivity. }
  rewrite snd_for_show in Hs. apply for_append_spec in Hs as [bs [F _]].
  subst shown. rewrite !count_concat, !map_map. clear E.
  induction F as [|d b ds bs' Hd F IH]; [split; reflexivity|].
  destruct IH as [IH1 IH2].
  destruct (show_doc_counts repr d b Hd) as [C1 C2].
  cbn [map List.length]. rewrite !list_sum_cons, C1, C2, IH1, IH2.
  split; lia.
Qed.

Lemma show_full_counts (repr : value -> Py.str) (clause : value)
    (block : Py.str) :
  snd (show_full repr clause) = Ok block ->
  count is_expander (fst (show_full repr clause)) = (1 + n_docs clause)%nat
  /\ count is_markdown (fst (show_full repr clause))
     = (5 + 8 * n_docs clause)%nat.
Proof.
  unfold show_full. rewrite snd_show_bind, fst_show_bind.
  destruct (snd (show_clause repr clause)) as [head|e] eqn:Hc;
    [|discriminate].
  rewrite snd_show_bind, fst_show_bind.
  destruct (snd (show_docs repr clause)) as [texts|e] eqn:Hd;
    [|discriminate].
  intros _. cbn [show_ret fst]. rewrite app_nil_r, !count_app.
  destruct (show_clause_counts repr clause head Hc) as [C1 C2].
  assert (D : is_dict clause = true).
  { destruct clause; try discriminate. reflexivity. }
  destruct (show_docs_counts repr clause texts D Hd) as [D1 D2].
  rewrite C1, C2, D1, D2. split; reflexivity.
Qed.

(** When the assembly of a reply ends normally, the page has displayed
    every clause and every supporting document of the reply, in the order
    of the reply: what is displayed is the display of the first clause,
    then of the second, and so on; in all one expander per clause with its
    five lines and one expander per document with its eight lines. *)
Theorem display_in_retrieval_order (repr : value -> Py.str)
    (clauses : list value) (shown : list widget) (blocks : list Py.str) :
  show_context repr (VList clauses) = (shown, Ok blocks) ->
  shown = List.concat (map (fun clause => fst (show_full repr clause)) clauses)
  /\ count is_expander shown
     = (List.length clauses + list_sum (map n_docs clauses))%nat
  /\ count is_markdown shown
     = (5 * List.length clauses + 8 * list_sum (map n_docs clauses))%nat.
Proof.
  unfold show_context. cbv [show_bind eval iter].
  destruct (for_show (show_full repr) clauses []) as [sh r] eqn:E.
  cbn [app]. intros H. injection H as <- ->.
  assert (Hs : snd (for_show (show_full repr) clauses []) = Ok blocks)
    by (rewrite E; reflexivity).
  assert (Hf : sh = List.concat (map (fun x => fst (show_full repr x)) clauses)).
  { rewrite <- (for_show_ok _ _ _ _ Hs), E. reflexivity. }
  split; [exact Hf|].
  rewrite snd_for_show in Hs. apply for_append_spec in Hs as [bs [F _]].
  subst sh. rewrite !count_concat, !map_map. clear E.
  induction F as [|c b cs bs' Hc F IH]; [split; reflexivity|].
  destruct IH as [IH1 IH2].
  destruct (show_full_counts repr c b Hc) as [C1 C2].
  cbn [map List.length]. rewrite !list_sum_cons, C1, C2, IH1, IH2.
  split; lia.
Qed.

Lemma display_in_retrieval_order_witness :
  count is_expander (fst (show_context repr_unused (VList sample_clauses)))
  = 4%nat
  /\ count is_markdown (fst (show_context repr_unused (VList sample_clauses)))
     = 26%nat.
Proof.
  assert (E : show_context repr_unused (VList sample_clauses)
              = (fst (show_context repr_unused (VList sample_clauses)),
                 Ok sample_blocks)) by (vm_compute; reflexivity).
  destruct (display_in_retrieval_order repr_unused sample_clauses _
              sample_blocks E) as [_ [H1 H2]].
  split; [rewrite H1 | rewrite H2]; vm_compute; reflexivity.
Defined.

(** When the block of a clause raises, the page has displayed the clauses
    before it in full and, of the clause itself, what came before the
    exception; the clauses after it are neither displayed nor looked at:
    the result is the same whatever follows the malformed record. *)
Theorem display_stops_at_malformed_clause (repr : value -> Py.str)
    (done rest : list value) (bad : value) (e : exn) :
  Forall (fun clause => exists block, full_block repr clause = Ok block) done ->
  full_block repr bad = Raise e ->
  show_context repr (VList (done ++ bad :: rest))
  = (List.concat (map (fun clause => fst (show_full repr clause)) done)
       ++ fst (show_full repr bad), Raise e).
Proof.
  intros F Hb. unfold show_context. cbv [show_bind eval iter].
  rewrite (for_show_raise (show_full repr) done rest bad [] e).
  - reflexivity.
  - induction F as [|c cs [b Hc] F IH]; constructor.
    + exists b. rewrite snd_show_full. exact Hc.
    + exact IH.
  - rewrite snd_show_full. exact Hb.
Qed.

Lemma display_stops_at_malformed_clause_witness :
  show_context repr_unused (VList ([clause_minimal] ++ clause_bare :: sample_clauses))
  = (List.concat (map (fun clause => fst (show_full repr_unused clause))
               [clause_minimal])
       ++ fst (show_full repr_unused clause_bare),
     Raise (KeyError (Py.utf8 "clause_summary"))).
Proof.
  apply (display_stops_at_malformed_clause repr_unused [clause_minimal]
           sample_clauses clause_bare (KeyError (Py.utf8 "clause_summary"))).
  - constructor; [|constructor]. eexists. vm_compute. reflexivity.
  - vm_compute. reflexivity.
Defined.

(** The label of a document's expander asks for the title with
    [doc.get(..., 'N/A')], the next line with [doc['support_title']]: a
    document without title is displayed as an expander labelled [N/A]
    that holds a rule and nothing else, and then raises [KeyError]; a
    document that is displayed in full carries its own title in the
    label. *)
Theorem doc_label_title (repr : value -> Py.str) (doc : value) :
  (is_dict doc = true -> field doc "support_title" = None ->
   show_doc repr doc
   = ([Expander (Py.utf8 "📄 " ++ Py.utf8 "N/A" ++ Py.utf8 " | "
                 ++ py_str repr
                      (field_or doc "support_publication_date" (lit "N/A")));
       Markdown (Py.utf8 "---")],
      Raise (KeyError (Py.utf8 "support_title"))))
  /\ (forall shown text,
        show_doc repr doc = (shown, Ok text) ->
        exists title,
          field doc "support_title" = Some title
          /\ hd_error shown
             = Some (Expander
                       (Py.utf8 "📄 " ++ py_str repr title ++ Py.utf8 " | "
                        ++ py_str repr
                             (field_or doc "support_publication_date"
                                (lit "N/A"))))).
Proof.
  split.
  - destruct doc as [| | | | |items]; try discriminate. intros _ H.
    unfold show_doc. rewrite !get_field_or.
    rewrite (subscript_absent _ _ H).
    unfold field_or at 1. rewrite H. reflexivity.
  - intros shown text.
    destruct doc as [| | | | |items]; try discriminate.
    unfold show_doc, doc_lines. rewrite !get_field_or.
    destruct (field (VDict items) "support_title") as [x|] eqn:E1.
    + rewrite (subscript_field _ _ _ E1).
      destruct (subscript (VDict items) "support_summary") as [y|e];
        [|discriminate].
      destruct (subscript (VDict items) "support_url") as [z|e];
        [|discriminate].
      cbv [show_bind eval emit bind]. cbn [app].
      intros H. injection H as <- _. exists x. split; [reflexivity|].
      cbn [hd_error]. unfold field_or at 1. rewrite E1. reflexivity.
    + rewrite (subscript_absent _ _ E1). discriminate.
Qed.

Lemma doc_label_title_witness :
  show_doc repr_unused
    (VDict [(Py.utf8 "support_summary", lit "HVAC work is not roofing work.");
            (Py.utf8 "support_publication_date", lit "2002-11-15")])
  = ([Expander (Py.utf8 "📄 " ++ Py.utf8 "N/A" ++ Py.utf8 " | "
                ++ py_str repr_unused
                     (field_or
                        (VDict [(Py.utf8 "support_summary",
                                 lit "HVAC work is not roofing work.");
                                (Py.utf8 "support_publication_date",
                                 lit "2002-11-15")])
                        "support_publication_date" (lit "N/A")));
      Markdown (Py.utf8 "---")],
     Raise (KeyError (Py.utf8 "support_title"))).
Proof.
  apply (doc_label_title repr_unused
           (VDict [(Py.utf8 "support_summary",
                    lit "HVAC work is not roofing work.");
                   (Py.utf8 "support_publication_date", lit "2002-11-15")]));
    reflexivity.
Defined.

Lemma get_same (d1 d2 default : value) (key : string) :
  is_dict d1 = is_dict d2 -> field d1 key = field d2 key ->
  get d1 key default = get d2 key default.
Proof.
  destruct d1, d2; try discriminate; try reflexivity.
  simpl. intros _ ->. reflexivity.
Qed.

Lemma subscript_same (d1 d2 : value) (key : string) :
  is_dict d1 = true -> is_dict d2 = true -> field d1 key = field d2 key ->
  subscript d1 key = subscript d2 key.
Proof.
  destruct d1, d2; try discriminate. simpl. intros _ _ ->. reflexivity.
Qed.

(** What of a supporting document reaches the model and what reaches the
    page: the text for the prompt reads eight keys, the revised date not
    among them, and the display reads eight keys, the related sections not
    among them.  Two documents that agree on the keys of the prompt have
    the same text in the prompt, and two that agree on the keys of the
    display are displayed alike. *)
Theorem doc_fields_sent_and_shown (repr : value -> Py.str) (d1 d2 : value) :
  is_dict d1 = true -> is_dict d2 = true ->
  ~ In "support_revised_date"%string prompt_keys
  /\ ~ In "support_related_sections"%string display_keys
  /\ (same_fields prompt_keys d1 d2 -> doc_block repr d1 = doc_block repr d2)
  /\ (same_fields display_keys d1 d2 ->
      fst (show_doc repr d1) = fst (show_doc repr d2)).
Proof.
  intros D1 D2.
  assert (D : is_dict d1 = is_dict d2) by congruence.
  split; [|split; [|split]].
  - intros H. cbn in H.
    repeat (destruct H as [H|H]; [discriminate|]). exact H.
  - intros H. cbn in H.
    repeat (destruct H as [H|H]; [discriminate|]). exact H.
  - intros F. unfold same_fields, prompt_keys in F.
    repeat match goal with
           | H : Forall _ (_ :: _) |- _ => inversion H; clear H; subst
           end.
    rewrite (doc_block_lines repr d1 D1), (doc_block_lines repr d2 D2).
    unfold doc_lines.
    repeat match goal with
           | H : field d1 ?k = field d2 ?k |- _ =>
               try rewrite (subscript_same d1 d2 k D1 D2 H);
               try rewrite (fun dflt => get_same d1 d2 dflt k D H);
               clear H
           end.
    reflexivity.
  - intros F. unfold same_fields, display_keys in F.
    repeat match goal with
           | H : Forall _ (_ :: _) |- _ => inversion H; clear H; subst
           end.
    unfold show_doc.
    repeat match goal with
           | H : field d1 ?k = field d2 ?k |- _ =>
               try rewrite (subscript_same d1 d2 k D1 D2 H);
               try rewrite (fun dflt => get_same d1 d2 dflt k D H);
               clear H
           end.
    destruct d2 as [| | | | |i2]; try discriminate.
    rewrite !get_field_or.
    destruct (subscript (VDict i2) "support_title") as [x|e];
      [|reflexivity].
    destruct (subscript (VDict i2) "support_summary") as [y|e];
      [|reflexivity].
    destruct (subscript (VDict i2) "support_url") as [z|e];
      [|reflexivity].
    cbv [show_bind eval emit fst].
    destruct (doc_lines repr d1); destruct (doc_lines repr (VDict i2));
      reflexivity.
Qed.

Lemma doc_fields_sent_and_shown_witness :
  doc_block repr_unused doc_dated = doc_block repr_unused doc_redated
  /\ fst (show_doc repr_unused doc_dated)
     = fst (show_doc repr_unused doc_related).
Proof.
  destruct (doc_fields_sent_and_shown repr_unused doc_dated doc_redated
              eq_refl eq_refl) as [_ [_ [H1 _]]].
  destruct (doc_fields_sent_and_shown repr_unused doc_dated doc_related
              eq_refl eq_refl) as [_ [_ [_ H2]]].
  split.
  - apply H1. unfold same_fields, prompt_keys.
    repeat (constructor; [vm_compute; reflexivity|]). constructor.
  - apply H2. unfold same_fields, display_keys.
    repeat (constructor; [vm_compute; reflexivity|]). constructor.
Defined.

Example revised_date_is_displayed_not_sent :
  In (Markdown (Py.utf8 "• **Revised Date:** 2004-03-01"))
    (fst (show_doc repr_unused doc_dated))
  /\ Py.containsb
       match doc_block repr_unused doc_dated with
       | Ok text => text
       | Raise _ => []
       end (Py.utf8 "2004-03-01") = false
  /\ Py.containsb
       match doc_block repr_unused doc_dated with
       | Ok text => text
       | Raise _ => []
       end (Py.utf8 "- Related Sections: 1926.501(b)(10)") = true.
Proof.
  split; [|split]; vm_compute; auto 10.
Qed.

Lemma subscript_has_key (q : value) (key : string) :
  field q key <> None -> subscript q key = Ok (field_or q key VNone).
Proof.
  intros H. unfold field_or.
  destruct (field q key) as [x|] eqn:E; [|congruence].
  apply subscript_field. exact E.
Qed.

Lemma has_keys_question (q : value) :
  has_keys question_keys q = true ->
  field q "question" <> None
  /\ field q "why_llm_fails" <> None
  /\ field q "correct_answer" <> None.
Proof.
  unfold has_keys, question_keys. cbn [forallb].
  destruct (field q "question"); [|discriminate].
  destruct (field q "why_llm_fails"); [|discriminate].
  destruct (field q "correct_answer"); [|discriminate].
  intros _. split; [|split]; discriminate.
Qed.

Lemma show_questions_cons (repr : value -> Py.str) (idx : Z) (q : value)
    (rest : list value) :
  has_keys question_keys q = true ->
  show_questions repr idx (q :: rest)
  = ([Markdown (Py.utf8 "### ❓ Q" ++ Py.str_of_int idx ++ Py.utf8 ": "
                ++ py_str repr (field_or q "question" VNone));
      Markdown (Py.utf8 "🔸 **Why LLMs Fail:** "
                ++ py_str repr (field_or q "why_llm_fails" VNone));
      Markdown (Py.utf8 "✅ **Correct Answer:** "
                ++ py_str repr (field_or q "correct_answer" VNone));
      Markdown (Py.utf8 "---")]
       ++ fst (show_questions repr (idx + 1) rest),
     snd (show_questions repr (idx + 1) rest)).
Proof.
  intros H. apply has_keys_question in H as [H1 [H2 H3]].
  cbn [show_questions].
  rewrite (subscript_has_key _ _ H1), (subscript_has_key _ _ H2),
    (subscript_has_key _ _ H3).
  cbv [show_bind eval emit].
  destruct (show_questions repr (idx + 1) rest). reflexivity.
Qed.

Lemma show_questions_spec (repr : value -> Py.str) (questions : list value) :
  forallb (has_keys question_keys) questions = true ->
  forall idx,
    snd (show_questions repr idx questions) = Ok tt
    /\ List.length (fst (show_questions repr idx questions))
       = (4 * List.length questions)%nat
    /\ forall k q,
         nth_error questions k = Some q ->
         nth_error (fst (show_questions repr idx questions)) (4 * k)
         = Some (Markdown
                   (Py.utf8 "### ❓ Q" ++ Py.str_of_int (idx + Z.of_nat k)
                    ++ Py.utf8 ": "
                    ++ py_str repr (field_or q "question" VNone))).
Proof.
  induction questions as [|q rest IH]; intros H idx.
  - split; [reflexivity|]. split; [reflexivity|].
    intros k q' Hk. destruct k; discriminate.
  - cbn [forallb] in H. apply andb_true_iff in H as [Hq Hr].
    rewrite (show_questions_cons repr idx q rest Hq).
    destruct (IH Hr (idx + 1)%Z) as [I1 [I2 I3]].
    cbn [fst snd]. split; [exact I1|]. split.
    + rewrite length_app, I2. cbn [List.length]. lia.
    + intros k q' Hk. destruct k as [|k].
      * cbn in Hk. injection Hk as <-.
        replace (idx + Z.of_nat 0)%Z with idx by lia. reflexivity.
      * cbn [nth_error] in Hk.
        replace (4 * S k)%nat with (4 + 4 * k)%nat by lia.
        cbn [app Nat.add nth_error].
        rewrite (I3 k q' Hk).
        replace (idx + 1 + Z.of_nat k)%Z with (idx + Z.of_nat (S k))%Z by lia.
        reflexivity.
Qed.

(** The panel of suggested questions, for every list of questions that
    have their three keys: it never raises, it shows its expander and four
    lines per question, and the heading of a question carries its position
    in the list counted from 1, as [enumerate(demo_questions, 1)] gives
    it. *)
Theorem demo_panel_numbering (repr : value -> Py.str)
    (questions : list value) :
  forallb (has_keys question_keys) questions = true ->
  snd (demo_panel repr questions) = Ok tt
  /\ List.length (fst (demo_panel repr questions))
     = (1 + 4 * List.length questions)%nat
  /\ forall k q,
       nth_error questions k = Some q ->
       nth_error (fst (demo_panel repr questions)) (1 + 4 * k)
       = Some (Markdown
                 (Py.utf8 "### ❓ Q" ++ Py.str_of_int (Z.of_nat k + 1)
                  ++ Py.utf8 ": "
                  ++ py_str repr (field_or q "question" VNone))).
Proof.
  intros H. destruct (show_questions_spec repr questions H 1%Z)
    as [S1 [S2 S3]].
  unfold demo_panel. cbv [show_bind emit].
  destruct (show_questions repr 1 questions) as [shown r].
  cbn [fst snd] in *. split; [exact S1|]. split.
  - cbn [app List.length]. rewrite S2. reflexivity.
  - intros k q Hk. cbn [app Nat.add nth_error].
    rewrite (S3 k q Hk).
    replace (1 + Z.of_nat k)%Z with (Z.of_nat k + 1)%Z by lia. reflexivity.
Qed.

Lemma demo_panel_numbering_witness :
  snd (demo_panel repr_unused demo_questions) = Ok tt
  /\ List.length (fst (demo_panel repr_unused demo_questions)) = 21%nat.
Proof.
  assert (H : forallb (has_keys question_keys) demo_questions = true)
    by (vm_compute; reflexivity).
  destruct (demo_panel_numbering repr_unused demo_questions H) as [H1 [H2 _]].
  split; [exact H1|]. rewrite H2. reflexivity.
Defined.
